(** * FitPortal API: authentication service and access guard

    A shallow embedding of
      - [apps/api/src/lib/errors.ts]            (module [errors]),
      - [apps/api/src/types/index.ts]           ([JwtPayload], [Request]),
      - [apps/api/src/config/index.ts]          ([Config]),
      - [apps/api/src/services/auth.service.ts] (module [AuthService]),
      - [apps/api/src/middleware/auth.ts]       (module [middleware]),
    together with models of the three libraries the code calls: bcrypt,
    jsonwebtoken and the Prisma client. *)

From Stdlib Require Import ZArith Lia Ascii String.
From stdpp Require Import base option list strings gmap.

Local Open Scope Z_scope.
Local Open Scope string_scope.

(** ** lib/errors.ts *)

Module errors.

(** [AppError]: the fields the handlers read.  [details] is never set by
    the subclasses used in the service and the guard. *)
Record AppError : Type := mkAppError {
  statusCode : Z;
  code : string;
  message : string;
}.

Definition BadRequestError (msg : string) : AppError :=
  mkAppError 400 "BAD_REQUEST" msg.

Definition UnauthorizedError (msg : string) : AppError :=
  mkAppError 401 "UNAUTHORIZED" msg.

Definition ForbiddenError (msg : string) : AppError :=
  mkAppError 403 "FORBIDDEN" msg.

Definition NotFoundError (resource : string) : AppError :=
  mkAppError 404 "NOT_FOUND" (resource +:+ " not found").

#[global] Instance AppError_eq_dec : EqDecision AppError.
Proof. solve_decision. Defined.

End errors.
Export errors.

(** ** Shared types *)

(** The Prisma enum [Role]. *)
Inductive Role : Type := ADMIN | CLIENT.

#[global] Instance Role_eq_dec : EqDecision Role.
Proof. solve_decision. Defined.

(** [JwtPayload] of types/index.ts. *)
Record JwtPayload : Type := mkJwtPayload {
  userId : string;
  email : string;
  role : Role;
}.

#[global] Instance JwtPayload_eq_dec : EqDecision JwtPayload.
Proof. solve_decision. Defined.

(** A [Date] is its time value: milliseconds since the epoch. *)
Definition Date : Type := Z.

(** The local time zone of the JavaScript runtime, as ECMAScript sees it:
    the offset of local time from UTC in milliseconds, in effect at a UTC
    time value ([LocalTZA(t, true)]) and at a local time value
    ([LocalTZA(t, false)]). *)
Record TimeZone : Type := mkTimeZone {
  LocalTZA_utc : Z -> Z;
  LocalTZA_local : Z -> Z;
}.

(** A runtime whose local time is UTC. *)
Definition UTC : TimeZone := mkTimeZone (fun _ => 0) (fun _ => 0).

Definition msPerDay : Z := 86400000.

(** [d.setDate(d.getDate() + n)]: [Date.prototype.setDate] works on the
    local calendar.  It takes the local time of [d], moves it by [n] days
    and converts the result back: [UTC(MakeDate(MakeDay(..., date + n),
    TimeWithinDay(LocalTime(d))))]. *)
Definition addDays (tz : TimeZone) (d : Date) (n : Z) : Date :=
  let local := d + LocalTZA_utc tz d + n * msPerDay in
  local - LocalTZA_local tz local.

(** ** bcrypt

    [bcrypt.hash] draws a random salt; the salt is an explicit argument
    here.  A hash is kept as the triple it is computed from, which is the
    ideal (collision-free) reading of the scheme; bcrypt only reads the
    first 72 bytes of the password. *)

Module bcrypt.

Record Hashed : Type := mkHashed {
  cost : nat;
  salt : string;
  preimage : string;
}.

#[global] Instance Hashed_eq_dec : EqDecision Hashed.
Proof. solve_decision. Defined.

Definition truncate (password : string) : string :=
  String.substring 0 72 password.

Definition hash (password : string) (rounds : nat) (salt : string) : Hashed :=
  mkHashed rounds salt (truncate password).

Definition compare (password : string) (h : Hashed) : bool :=
  bool_decide (truncate password = preimage h).

End bcrypt.

(** ** jsonwebtoken

    A compact JWS signed with HS256 is a function of the signing key, the
    claim set and the two timestamps [iat] and [exp] (both in whole
    seconds): nothing random enters it.  A well-formed token is kept as
    that tuple; every other string is [Malformed]. *)

Module jwt.

Record Jws : Type := mkJws {
  key : string;
  claims : JwtPayload;
  iat : Z;
  exp : Z;
}.

Inductive Token : Type :=
| Signed (j : Jws)
| Malformed (text : string).

#[global] Instance Jws_eq_dec : EqDecision Jws.
Proof. solve_decision. Defined.

#[global] Instance Token_eq_dec : EqDecision Token.
Proof. solve_decision. Defined.

(** [TokenExpiredError] is a subclass of [JsonWebTokenError]. *)
Inductive Error : Type :=
| JsonWebTokenError
| TokenExpiredError.

(** [Math.floor(Date.now() / 1000)] *)
Definition clockTimestamp (now : Date) : Z := now / 1000.

(** [jwt.sign(payload, secret, { expiresIn })], [expiresIn] in seconds. *)
Definition sign (payload : JwtPayload) (secret : string) (expiresIn : Z)
    (now : Date) : Token :=
  let timestamp := clockTimestamp now in
  Signed (mkJws secret payload timestamp (timestamp + expiresIn)).

(** [jwt.verify(token, secret)]: the signature is checked first, the
    expiry after it. *)
Definition verify (token : Token) (secret : string) (now : Date)
    : Error + JwtPayload :=
  match token with
  | Malformed _ => inl JsonWebTokenError
  | Signed j =>
      if bool_decide (key j = secret) then
        if bool_decide (exp j <= clockTimestamp now)
        then inl TokenExpiredError
        else inr (claims j)
      else inl JsonWebTokenError
  end.

(** A JavaScript string is falsy exactly when it is empty. *)
Definition truthy (token : Token) : bool :=
  match token with
  | Malformed "" => false
  | _ => true
  end.

End jwt.

(** ** config/index.ts: the [jwt] section, expiries in seconds *)

Record Config : Type := mkConfig {
  accessSecret : string;
  refreshSecret : string;
  accessExpiry : Z;
  refreshExpiry : Z;
}.

(** The defaults of the environment schema: ['15m'] and ['7d']. *)
Definition ACCESS_TOKEN_EXPIRY_default : Z := 15 * 60.
Definition REFRESH_TOKEN_EXPIRY_default : Z := 7 * 24 * 60 * 60.

(** ** The record store (Prisma client)

    Two tables.  [User.id], [User.email] and [RefreshToken.token] are the
    unique columns [findUnique] is called with; [RefreshToken.id] is the
    generated primary key. *)

Module User.
Record t : Type := mk {
  id : string;
  email : string;
  name : string;
  passwordHash : bcrypt.Hashed;
  role : Role;
  active : bool;
}.
End User.

Module RefreshToken.
Record t : Type := mk {
  id : nat;
  token : jwt.Token;
  userId : string;
  expiresAt : Date;
}.
End RefreshToken.

Record Db : Type := mkDb {
  users : list User.t;
  refreshTokens : list RefreshToken.t;
  nextId : nat;
}.

(** What an [await]ed call can throw. *)
Inductive Exn : Type :=
| AppErr (e : AppError)
| JwtErr (e : jwt.Error)
| PrismaErr (code : string).

Inductive Result (A : Type) : Type :=
| Ok (a : A)
| Throw (e : Exn).
Arguments Ok {A} a.
Arguments Throw {A} e.

(** An [async] function over the store: it returns or throws, and leaves
    a store behind in both cases. *)
Definition Async (A : Type) : Type := Db -> Result A * Db.

Definition ret {A} (a : A) : Async A := fun db => (Ok a, db).

Definition throw {A} (e : Exn) : Async A := fun db => (Throw e, db).

Definition bind {A B} (m : Async A) (k : A -> Async B) : Async B :=
  fun db =>
    match m db with
    | (Ok a, db') => k a db'
    | (Throw e, db') => (Throw e, db')
    end.

Declare Scope async_scope.
Delimit Scope async_scope with async.
Notation "'await' x <- m ;; k" := (bind m (fun x => k))
  (at level 100, x name, m at next level, k at level 200,
   right associativity) : async_scope.
Local Open Scope async_scope.

Module prisma.

Module user.

(** The row a unique lookup selects, if any. *)
Definition by_email (e : string) (db : Db) : option User.t :=
  snd <$> list_find (fun u => User.email u = e) (users db).

Definition by_id (i : string) (db : Db) : option User.t :=
  snd <$> list_find (fun u => User.id u = i) (users db).

(** [prisma.user.findUnique({ where: { email } })] *)
Definition findUnique_email (e : string) : Async (option User.t) :=
  fun db => (Ok (by_email e db), db).

(** [prisma.user.findUnique({ where: { id } })] *)
Definition findUnique_id (i : string) : Async (option User.t) :=
  fun db => (Ok (by_id i db), db).

Definition set_passwordHash (h : bcrypt.Hashed) (u : User.t) : User.t :=
  User.mk (User.id u) (User.email u) (User.name u) h (User.role u)
          (User.active u).

(** [prisma.user.update({ where: { id }, data: { passwordHash } })];
    P2025 is Prisma's "record to update not found". *)
Definition update_passwordHash (i : string) (h : bcrypt.Hashed) : Async unit :=
  fun db =>
    match by_id i db with
    | None => (Throw (PrismaErr "P2025"), db)
    | Some _ =>
        (Ok tt,
         mkDb ((fun u => if decide (User.id u = i)
                         then set_passwordHash h u else u) <$> users db)
              (refreshTokens db) (nextId db))
    end.

End user.

Module refreshToken.

(** The row a unique lookup selects, if any. *)
Definition by_token (tok : jwt.Token) (db : Db) : option RefreshToken.t :=
  snd <$> list_find (fun r => RefreshToken.token r = tok) (refreshTokens db).

Definition by_id (i : nat) (db : Db) : option RefreshToken.t :=
  snd <$> list_find (fun r => RefreshToken.id r = i) (refreshTokens db).

(** [prisma.refreshToken.create({ data: { token, userId, expiresAt } })];
    P2002 is Prisma's "unique constraint failed", here on [token]. *)
Definition create (tok : jwt.Token) (uid : string) (expiresAt : Date)
    : Async RefreshToken.t :=
  fun db =>
    match by_token tok db with
    | Some _ => (Throw (PrismaErr "P2002"), db)
    | None =>
        let row := RefreshToken.mk (nextId db) tok uid expiresAt in
        (Ok row, mkDb (users db) (refreshTokens db ++ [row]) (S (nextId db)))
    end.

(** [prisma.refreshToken.findUnique({ where: { token },
    include: { user: true } })].  The relation is required: a row whose
    user is missing makes the query fail. *)
Definition findUnique_include_user (tok : jwt.Token)
    : Async (option (RefreshToken.t * User.t)) :=
  fun db =>
    match by_token tok db with
    | None => (Ok None, db)
    | Some row =>
        match user.by_id (RefreshToken.userId row) db with
        | Some u => (Ok (Some (row, u)), db)
        | None => (Throw (PrismaErr "inconsistent query result"), db)
        end
    end.

(** [prisma.refreshToken.delete({ where: { id } })] *)
Definition delete (i : nat) : Async unit :=
  fun db =>
    match by_id i db with
    | None => (Throw (PrismaErr "P2025"), db)
    | Some _ =>
        (Ok tt,
         mkDb (users db)
              (filter (fun r => RefreshToken.id r <> i) (refreshTokens db))
              (nextId db))
    end.

(** [prisma.refreshToken.deleteMany({ where: { token } })] *)
Definition deleteMany_token (tok : jwt.Token) : Async unit :=
  fun db =>
    (Ok tt,
     mkDb (users db)
          (filter (fun r => RefreshToken.token r <> tok) (refreshTokens db))
          (nextId db)).

(** [prisma.refreshToken.deleteMany({ where: { userId } })] *)
Definition deleteMany_userId (uid : string) : Async unit :=
  fun db =>
    (Ok tt,
     mkDb (users db)
          (filter (fun r => RefreshToken.userId r <> uid) (refreshTokens db))
          (nextId db)).

End refreshToken.

End prisma.

(** ** services/auth.service.ts *)

(** [String.prototype.toLowerCase] on the ASCII letters. *)
Definition lower_ascii (c : ascii) : ascii :=
  let n := nat_of_ascii c in
  if ((65 <=? n)%nat && (n <=? 90)%nat)%bool then ascii_of_nat (n + 32) else c.

Fixpoint toLowerCase (s : string) : string :=
  match s with
  | EmptyString => EmptyString
  | String c s' => String (lower_ascii c) (toLowerCase s')
  end.

Module AuthService.

Definition SALT_ROUNDS : nat := 12.

Record PublicUser : Type := mkPublicUser {
  pu_id : string;
  pu_email : string;
  pu_name : string;
  pu_role : Role;
}.

Record LoginResult : Type := mkLoginResult {
  lr_accessToken : jwt.Token;
  lr_refreshToken : jwt.Token;
  lr_user : PublicUser;
}.

Record RefreshResult : Type := mkRefreshResult {
  rr_accessToken : jwt.Token;
  rr_refreshToken : jwt.Token;
}.

Section WithConfig.

Variable config : Config.
Variable tz : TimeZone.

Definition hashPassword (salt password : string) : bcrypt.Hashed :=
  bcrypt.hash password SALT_ROUNDS salt.

Definition comparePassword (password : string) (h : bcrypt.Hashed) : bool :=
  bcrypt.compare password h.

Definition generateAccessToken (payload : JwtPayload) (now : Date)
    : jwt.Token :=
  jwt.sign payload (accessSecret config) (accessExpiry config) now.

Definition generateRefreshToken (payload : JwtPayload) (now : Date)
    : jwt.Token :=
  jwt.sign payload (refreshSecret config) (refreshExpiry config) now.

Definition login (email password : string) (rememberMe : bool) (now : Date)
    : Async LoginResult :=
  await user <- prisma.user.findUnique_email (toLowerCase email) ;;
  match user with
  | None => throw (AppErr (UnauthorizedError "Invalid email or password"))
  | Some user =>
      if negb (User.active user) then
        throw (AppErr (UnauthorizedError "Account is deactivated"))
      else
      let isValid := comparePassword password (User.passwordHash user) in
      if negb isValid then
        throw (AppErr (UnauthorizedError "Invalid email or password"))
      else
      let payload :=
        mkJwtPayload (User.id user) (User.email user) (User.role user) in
      let accessToken := generateAccessToken payload now in
      let refreshToken := generateRefreshToken payload now in
      let expiresAt :=
        if rememberMe then addDays tz now 30 else addDays tz now 7 in
      await _ <- prisma.refreshToken.create refreshToken (User.id user) expiresAt ;;
      ret (mkLoginResult accessToken refreshToken
             (mkPublicUser (User.id user) (User.email user)
                           (User.name user) (User.role user)))
  end.

Definition refreshAccessToken (refreshToken : jwt.Token) (now : Date)
    : Async RefreshResult :=
  match jwt.verify refreshToken (refreshSecret config) now with
  | inl _ => throw (AppErr (UnauthorizedError "Invalid refresh token"))
  | inr _ =>
      await storedToken <-
        prisma.refreshToken.findUnique_include_user refreshToken ;;
      match storedToken with
      | None => throw (AppErr (UnauthorizedError "Refresh token not found"))
      | Some (storedToken, user) =>
          if bool_decide (RefreshToken.expiresAt storedToken < now) then
            await _ <- prisma.refreshToken.delete (RefreshToken.id storedToken) ;;
            throw (AppErr (UnauthorizedError "Refresh token expired"))
          else
          if negb (User.active user) then
            throw (AppErr (UnauthorizedError "Account is deactivated"))
          else
          let newPayload :=
            mkJwtPayload (User.id user) (User.email user) (User.role user) in
          let newAccessToken := generateAccessToken newPayload now in
          let newRefreshToken := generateRefreshToken newPayload now in
          await _ <- prisma.refreshToken.delete (RefreshToken.id storedToken) ;;
          await _ <- prisma.refreshToken.create newRefreshToken (User.id user)
                  (now + 7 * 24 * 60 * 60 * 1000) ;;
          ret (mkRefreshResult newAccessToken newRefreshToken)
      end
  end.

Definition logout (refreshToken : jwt.Token) : Async unit :=
  prisma.refreshToken.deleteMany_token refreshToken.

Definition logoutAll (userId : string) : Async unit :=
  prisma.refreshToken.deleteMany_userId userId.

Definition changePassword (userId currentPassword newPassword : string)
    (salt : string) : Async unit :=
  await user <- prisma.user.findUnique_id userId ;;
  match user with
  | None => throw (AppErr (NotFoundError "User"))
  | Some user =>
      let isValid := comparePassword currentPassword (User.passwordHash user) in
      if negb isValid then
        throw (AppErr (BadRequestError "Current password is incorrect"))
      else
      let newHash := hashPassword salt newPassword in
      await _ <- prisma.user.update_passwordHash userId newHash ;;
      logoutAll userId
  end.

Definition adminResetPassword (clientId newPassword : string)
    (salt : string) : Async unit :=
  await user <- prisma.user.findUnique_id clientId ;;
  match user with
  | None => throw (AppErr (NotFoundError "User"))
  | Some _ =>
      let newHash := hashPassword salt newPassword in
      await _ <- prisma.user.update_passwordHash clientId newHash ;;
      logoutAll clientId
  end.

End WithConfig.

End AuthService.

(** ** middleware/auth.ts *)

(** The JavaScript values a property of a request object can hold;
    [JsObject] stands for any object, array or function. *)
Inductive JsValue : Type :=
| JsUndefined
| JsNull
| JsBoolean (b : bool)
| JsNumber (n : Z)
| JsString (s : string)
| JsObject.

#[global] Instance JsValue_eq_dec : EqDecision JsValue.
Proof. solve_decision. Defined.

Definition truthy (v : JsValue) : bool :=
  match v with
  | JsUndefined | JsNull => false
  | JsBoolean b => b
  | JsNumber n => negb (bool_decide (n = 0))
  | JsString s => negb (bool_decide (s = ""))
  | JsObject => true
  end.

(** The names every plain object inherits from [Object.prototype]: eleven
    functions and the [__proto__] accessor, all of them objects. *)
Definition Object_prototype : list string :=
  [ "constructor"; "__defineGetter__"; "__defineSetter__"; "hasOwnProperty";
    "__lookupGetter__"; "__lookupSetter__"; "isPrototypeOf";
    "propertyIsEnumerable"; "toString"; "valueOf"; "__proto__";
    "toLocaleString" ].

(** [o[name]] on a plain object with the own properties [own]: the own
    property when there is one, else what [Object.prototype] has under
    that name, else [undefined]. *)
Definition get_property {A : Type} (inject : A -> JsValue)
    (own : gmap string A) (name : string) : JsValue :=
  match own !! name with
  | Some v => inject v
  | None =>
      if bool_decide (name ∈ Object_prototype) then JsObject else JsUndefined
  end.

(** [a || b] *)
Definition js_or (a b : JsValue) : JsValue := if truthy a then a else b.

(** The [Authorization] header: either the text ["Bearer "] followed by a
    token string, or a value that does not start with ["Bearer "]. *)
Inductive Authorization : Type :=
| Bearer (credentials : jwt.Token)
| NotBearer (text : string).

(** [AuthenticatedRequest]: the parts the guard reads and writes. *)
Record Request : Type := mkRequest {
  authorization : option Authorization;
  params : gmap string string;
  body : option (gmap string JsValue);
  user : option JwtPayload;
}.

(** What a middleware hands to Express: [next()] with the request as it
    now is, or [next(error)]. *)
Inductive Next : Type :=
| next (req : Request)
| next_error (error : Exn).

Module middleware.

Section WithConfig.

Variable config : Config.

Definition set_user (req : Request) (payload : JwtPayload) : Request :=
  mkRequest (authorization req) (params req) (body req) (Some payload).

(** [authHeader?.startsWith('Bearer ') ? authHeader.slice(7) : null] *)
Definition bearerToken (authHeader : option Authorization)
    : option jwt.Token :=
  match authHeader with
  | Some (Bearer credentials) => Some credentials
  | _ => None
  end.

(** The [try] block of [authenticate]. *)
Definition authenticate_try (req : Request) (now : Date) : Async Request :=
  let authHeader := authorization req in
  let token := bearerToken authHeader in
  match token with
  | None => throw (AppErr (UnauthorizedError "No token provided"))
  | Some token =>
      if negb (jwt.truthy token) then
        throw (AppErr (UnauthorizedError "No token provided"))
      else
      match jwt.verify token (accessSecret config) now with
      | inl e => throw (JwtErr e)
      | inr payload =>
          await user <- prisma.user.findUnique_id (userId payload) ;;
          match user with
          | None =>
              throw (AppErr (UnauthorizedError "User not found or inactive"))
          | Some user =>
              if negb (User.active user) then
                throw (AppErr (UnauthorizedError "User not found or inactive"))
              else ret (set_user req payload)
          end
      end
  end.

(** The [catch] block of [authenticate]; [TokenExpiredError] is tested
    first. *)
Definition authenticate_catch (error : Exn) : Exn :=
  match error with
  | JwtErr jwt.TokenExpiredError => AppErr (UnauthorizedError "Token expired")
  | JwtErr jwt.JsonWebTokenError => AppErr (UnauthorizedError "Invalid token")
  | _ => error
  end.

Definition authenticate (req : Request) (now : Date) (db : Db) : Next :=
  match fst (authenticate_try req now db) with
  | Ok req' => next req'
  | Throw error => next_error (authenticate_catch error)
  end.

End WithConfig.

Definition requireRole (roles : list Role) (req : Request) : Next :=
  match user req with
  | None => next_error (AppErr (UnauthorizedError "Not authenticated"))
  | Some u =>
      if negb (bool_decide (role u ∈ roles)) then
        next_error (AppErr (ForbiddenError "Insufficient permissions"))
      else next req
  end.

(** [req.params[paramName] || req.body?.[paramName]]; both are plain
    objects. *)
Definition resourceClientId (paramName : string) (req : Request) : JsValue :=
  js_or (get_property JsString (params req) paramName)
        (match body req with
         | None => JsUndefined
         | Some b => get_property id b paramName
         end).

Definition requireOwnership (paramName : string) (req : Request) : Next :=
  match user req with
  | None => next_error (AppErr (UnauthorizedError "Not authenticated"))
  | Some u =>
      if bool_decide (role u = ADMIN) then next req
      else
        let resourceClientId := resourceClientId paramName req in
        if (truthy resourceClientId
            && negb (bool_decide (resourceClientId = JsString (userId u))))%bool
        then next_error (AppErr (ForbiddenError "Cannot access another user's data"))
        else next req
  end.

(** [requireOwnership()] with the default parameter name. *)
Definition requireOwnership_default : Request -> Next :=
  requireOwnership "clientId".

End middleware.

(** ** Express: the middleware stack of a route

    Express runs the middlewares of a route in order and hands the first
    [next(error)] to the error handler, skipping what follows. *)

Definition andThen (n : Next) (mw : Request -> Next) : Next :=
  match n with
  | next req => mw req
  | next_error error => next_error error
  end.

(** What reaches [asyncHandler]'s [catch(next)]: an error the service or
    the guard raised, or the [TypeError] of reading a property of
    [undefined]. *)
Inductive Thrown : Type :=
| Raised (e : Exn)
| TypeError.

(** The outcome of a route: the [data] of the JSON reply, or the error
    handed to the error handler; and the store it leaves. *)
Definition Route (A : Type) : Type := Db -> (Thrown + A) * Db.

(** ** routes/auth.routes.ts *)

Module auth_routes.

Section WithConfig.

Variable config : Config.

(** The handler of [POST /auth/logout-all]:
    [AuthService.logoutAll(req.user!.userId)]. *)
Definition logout_all_handler (req : Request) : Route string :=
  fun db =>
    match user req with
    | None => (inl TypeError, db)
    | Some u =>
        match AuthService.logoutAll (userId u) db with
        | (Ok _, db') => (inr "Logged out from all devices", db')
        | (Throw e, db') => (inl (Raised e), db')
        end
    end.

(** [router.post('/logout-all', authenticate, asyncHandler(...))] *)
Definition logout_all (req : Request) (now : Date) : Route string :=
  fun db =>
    match middleware.authenticate config req now db with
    | next_error e => (inl (Raised e), db)
    | next req' => logout_all_handler req' db
    end.

End WithConfig.

End auth_routes.

(** ** routes/user.routes.ts *)

Module user_routes.

(** [prisma.user.findUnique({ where: { id, role: 'CLIENT' } })] *)
Definition findUnique_client (i : string) : Async (option User.t) :=
  fun db =>
    (Ok (match prisma.user.by_id i db with
         | Some u => if bool_decide (User.role u = CLIENT) then Some u else None
         | None => None
         end), db).

Definition set_active (a : bool) (u : User.t) : User.t :=
  User.mk (User.id u) (User.email u) (User.name u) (User.passwordHash u)
          (User.role u) a.

(** [prisma.user.update({ where: { id }, data: { active } })] *)
Definition update_active (i : string) (a : bool) : Async unit :=
  fun db =>
    match prisma.user.by_id i db with
    | None => (Throw (PrismaErr "P2025"), db)
    | Some _ =>
        (Ok tt,
         mkDb ((fun u => if decide (User.id u = i) then set_active a u else u)
                 <$> users db)
              (refreshTokens db) (nextId db))
    end.

(** The handler of [DELETE /users/clients/:clientId] (soft delete). *)
Definition delete_client_handler (clientId : string) : Async string :=
  await client <- findUnique_client clientId ;;
  match client with
  | None => throw (AppErr (NotFoundError "Client"))
  | Some _ =>
      await _ <- update_active clientId false ;;
      ret "Client deactivated successfully"
  end.

End user_routes.

(** * Vocabulary of the properties *)

(** The error kinds of the taxonomy, as the service spells them. *)
Definition InvalidCredentials : Exn :=
  AppErr (UnauthorizedError "Invalid email or password").
Definition AccountDisabled : Exn :=
  AppErr (UnauthorizedError "Account is deactivated").
Definition InvalidRefreshToken : Exn :=
  AppErr (UnauthorizedError "Invalid refresh token").
Definition RefreshTokenNotFound : Exn :=
  AppErr (UnauthorizedError "Refresh token not found").
Definition RefreshTokenExpired : Exn :=
  AppErr (UnauthorizedError "Refresh token expired").

(** The guard's failures, as [authenticate] spells them. *)
Definition NoTokenProvided : Exn :=
  AppErr (UnauthorizedError "No token provided").
Definition InvalidToken : Exn :=
  AppErr (UnauthorizedError "Invalid token").
Definition TokenExpired : Exn :=
  AppErr (UnauthorizedError "Token expired").
Definition UserNotFoundOrInactive : Exn :=
  AppErr (UnauthorizedError "User not found or inactive").

Definition CannotAccessOthersData : Exn :=
  AppErr (ForbiddenError "Cannot access another user's data").

(** The claims minted for a stored user. *)
Definition payload_of (u : User.t) : JwtPayload :=
  mkJwtPayload (User.id u) (User.email u) (User.role u).

(** The unique index on [RefreshToken.token]. *)
Definition unique_tokens (db : Db) : Prop :=
  NoDup (RefreshToken.token <$> refreshTokens db).

(** The [async] function [m] keeps the property [I] of the store. *)
Definition preserves {A : Type} (I : Db -> Prop) (m : Async A) : Prop :=
  forall db, I db -> I (snd (m db)).

(** The token's signature verifies under [secret]. *)
Definition signed_with (secret : string) (token : jwt.Token) : Prop :=
  match token with
  | jwt.Signed j => jwt.key j = secret
  | jwt.Malformed _ => False
  end.

(** Every Session row holds a signed token and belongs to the principal
    that the token names. *)
Definition rows_match_tokens (db : Db) : Prop :=
  forall r, r ∈ refreshTokens db ->
    exists j, RefreshToken.token r = jwt.Signed j /\
              userId (jwt.claims j) = RefreshToken.userId r.

(** The guard's answer when no principal is attached. *)
Definition NotAuthenticated : Exn :=
  AppErr (UnauthorizedError "Not authenticated").
Definition InsufficientPermissions : Exn :=
  AppErr (ForbiddenError "Insufficient permissions").

(** ** A sample installation, used to run the code on concrete inputs *)

Module Sample.

Definition config : Config :=
  mkConfig "access-secret-0123456789-0123456789-0123456789"
           "refresh-secret-0123456789-0123456789-012345678"
           ACCESS_TOKEN_EXPIRY_default REFRESH_TOKEN_EXPIRY_default.

Definition admin : User.t :=
  User.mk "u0" "admin@fitportal.com" "Admin"
          (bcrypt.hash "Admin123!" 12 "salt0") ADMIN true.

Definition john : User.t :=
  User.mk "u1" "john@example.com" "John"
          (bcrypt.hash "Client123!" 12 "salt1") CLIENT true.

(** A deactivated client. *)
Definition sarah : User.t :=
  User.mk "u2" "sarah@example.com" "Sarah"
          (bcrypt.hash "Client123!" 12 "salt2") CLIENT false.

Definition db0 : Db := mkDb [admin; john; sarah] [] 0.

Definition john_payload : JwtPayload :=
  mkJwtPayload "u1" "john@example.com" CLIENT.

(** The store after John logged in at time value 5000. *)
Definition db1 : Db :=
  snd (AuthService.login config UTC "John@Example.com" "Client123!" false 5000
         db0).

(** The refresh token that login handed out. *)
Definition R1 : jwt.Token :=
  AuthService.generateRefreshToken config john_payload 5000.

End Sample.

Module SampleZones.

(** A zone one hour ahead of UTC that moves its clocks forward by an hour
    three days after the epoch. *)
Definition transition : Z := 3 * msPerDay.

Definition spring_forward : TimeZone :=
  mkTimeZone
    (fun t => if bool_decide (t < transition) then 3600000 else 7200000)
    (fun l => if bool_decide (l < transition + 3600000) then 3600000
              else 7200000).

End SampleZones.

Module SampleTokens.

(** John's claims under a key that is not the server's. *)
Definition forged : jwt.Token :=
  jwt.sign Sample.john_payload "some-other-key" REFRESH_TOKEN_EXPIRY_default 5000.

(** The first instant at which [Sample.R1] has expired. *)
Definition after_expiry : Date := (5 + REFRESH_TOKEN_EXPIRY_default) * 1000.

End SampleTokens.

Module SampleRows.

(** The Session row John's login at 5000 created. *)
Definition row1 : RefreshToken.t :=
  RefreshToken.mk 0 Sample.R1 "u1" (addDays UTC 5000 7).

End SampleRows.

Module SampleRequests.

(** The access token John's login at 5000 returned; it expires at
    second 905. *)
Definition A1 : jwt.Token :=
  AuthService.generateAccessToken Sample.config Sample.john_payload 5000.

(** John's claims signed with the refresh key instead of the access key. *)
Definition wrong_key : jwt.Token := Sample.R1.

Definition bearer (token : jwt.Token) : Request :=
  mkRequest (Some (Bearer token)) ∅ None None.

Definition no_header : Request := mkRequest None ∅ None None.

(** A store in which John has meanwhile been given another email and
    the [ADMIN] role. *)
Definition john_promoted : User.t :=
  User.mk "u1" "john@fitportal.com" "John"
          (bcrypt.hash "Client123!" 12 "salt1") ADMIN true.

Definition db_promoted : Db :=
  mkDb [Sample.admin; john_promoted; Sample.sarah] [] 0.

(** A store without John. *)
Definition db_without_john : Db := mkDb [Sample.admin; Sample.sarah] [] 0.

(** Sarah's (deactivated) claims under the access key. *)
Definition sarah_token : jwt.Token :=
  AuthService.generateAccessToken Sample.config
    (mkJwtPayload "u2" "sarah@example.com" CLIENT) 5000.

End SampleRequests.

Module SampleOwnership.

Definition admin_payload : JwtPayload :=
  mkJwtPayload "u0" "admin@fitportal.com" ADMIN.

(** A request on Sarah's record ([:clientId] is "u2"). *)
Definition on_sarah (who : JwtPayload) : Request :=
  mkRequest None {[ "clientId" := "u2" ]} None (Some who).

(** A request naming Sarah in the body only. *)
Definition on_sarah_in_body (who : JwtPayload) : Request :=
  mkRequest None ∅ (Some {[ "clientId" := JsString "u2" ]}) (Some who).



End SampleOwnership.

Module SampleLongRefresh.

(** An installation whose refresh tokens are configured for 30 days. *)
Definition config : Config :=
  mkConfig "access-secret-0123456789-0123456789-0123456789"
           "refresh-secret-0123456789-0123456789-012345678"
           ACCESS_TOKEN_EXPIRY_default (30 * 24 * 60 * 60).

(** The store after John logged in at 5000 without [rememberMe]: the
    token is good for 30 days, its row for 7. *)
Definition db1 : Db :=
  snd (AuthService.login config UTC "john@example.com" "Client123!" false
         5000 Sample.db0).

Definition R1 : jwt.Token :=
  AuthService.generateRefreshToken config Sample.john_payload 5000.

Definition row1 : RefreshToken.t :=
  RefreshToken.mk 0 R1 "u1" (addDays UTC 5000 7).

(** Eight days after the login. *)
Definition day8 : Date := 5000 + 8 * msPerDay.

End SampleLongRefresh.

Module SampleDeactivated.

(** [Sample.db1] after John's account was deactivated: his Session row is
    still there. *)
Definition john_off : User.t :=
  User.mk "u1" "john@example.com" "John"
          (bcrypt.hash "Client123!" 12 "salt1") CLIENT false.

Definition db : Db :=
  mkDb [Sample.admin; john_off; Sample.sarah] (refreshTokens Sample.db1) 1.

(** [Sample.db1] after John was given the [ADMIN] role and a new email. *)
Definition db_promoted : Db :=
  mkDb [Sample.admin; SampleRequests.john_promoted; Sample.sarah]
       (refreshTokens Sample.db1) 1.

End SampleDeactivated.

Module SampleGuards.

(** The admin's access token, minted at 5000. *)
Definition admin_token : jwt.Token :=
  AuthService.generateAccessToken Sample.config SampleOwnership.admin_payload
    5000.

(** John asks for his own record in the path and names Sarah in the body. *)
Definition own_path_other_body : Request :=
  mkRequest None {[ "clientId" := "u1" ]}
            (Some {[ "clientId" := JsString "u2" ]}) (Some Sample.john_payload).

(** John asks for Sarah's record in the path and names himself in the
    body. *)
Definition other_path_own_body : Request :=
  mkRequest None {[ "clientId" := "u2" ]}
            (Some {[ "clientId" := JsString "u1" ]}) (Some Sample.john_payload).

(** John sends a number, and [null], as owner id in the body. *)
Definition numeric_owner : Request :=
  mkRequest None ∅ (Some {[ "clientId" := JsNumber 7 ]})
            (Some Sample.john_payload).

Definition null_owner : Request :=
  mkRequest None ∅ (Some {[ "clientId" := JsNull ]})
            (Some Sample.john_payload).

End SampleGuards.

(** * Properties *)

(** ** Running [Async] code *)

Ltac run_async :=
  unfold bind, ret, throw,
    prisma.user.findUnique_email, prisma.user.findUnique_id,
    prisma.user.update_passwordHash,
    prisma.refreshToken.create, prisma.refreshToken.findUnique_include_user,
    prisma.refreshToken.delete, prisma.refreshToken.deleteMany_token,
    prisma.refreshToken.deleteMany_userId in *.

Section LoginOrder.

Variable config : Config.
Variable tz : TimeZone.

(** C1 (as amended).  [login] tests the active flag before it compares
    the password: against a deactivated account every secret, right or
    wrong, gets [AccountDisabled] and the store is left as it was;
    [InvalidCredentials] for a wrong secret is what an active account
    answers. *)
Theorem login_checks_active_before_password
    (email password : string) (rememberMe : bool) (now : Date) (db : Db)
    (u : User.t) :
  prisma.user.by_email (toLowerCase email) db = Some u ->
  (User.active u = false ->
     AuthService.login config tz email password rememberMe now db
     = (Throw AccountDisabled, db)) /\
  (User.active u = true ->
     AuthService.comparePassword password (User.passwordHash u) = false ->
     AuthService.login config tz email password rememberMe now db
     = (Throw InvalidCredentials, db)).
Proof.
  intros Hu. unfold AuthService.login. run_async. rewrite Hu.
  split.
  - intros ->. reflexivity.
  - intros -> ->. reflexivity.
Qed.

End LoginOrder.

Lemma login_checks_active_before_password_witness :
  AuthService.login Sample.config UTC "Sarah@example.com" "Client123!" false 5000
    Sample.db0 = (Throw AccountDisabled, Sample.db0) /\
  AuthService.login Sample.config UTC "john@example.com" "wrong" false 5000
    Sample.db0 = (Throw InvalidCredentials, Sample.db0).
Proof.
  split.
  - apply (proj1 (login_checks_active_before_password Sample.config UTC
             "Sarah@example.com" "Client123!" false 5000 Sample.db0
             Sample.sarah eq_refl)).
    reflexivity.
  - apply (proj2 (login_checks_active_before_password Sample.config UTC
             "john@example.com" "wrong" false 5000 Sample.db0
             Sample.john eq_refl)); reflexivity.
Defined.

(** C1 as stated fails: a wrong secret presented against a deactivated
    account is answered with [AccountDisabled], not [InvalidCredentials]. *)
Lemma login_inactive_wrong_secret_counterexample :
  prisma.user.by_email (toLowerCase "sarah@example.com") Sample.db0
    = Some Sample.sarah /\
  User.active Sample.sarah = false /\
  AuthService.comparePassword "wrong" (User.passwordHash Sample.sarah) = false /\
  fst (AuthService.login Sample.config UTC "sarah@example.com" "wrong" false 5000
         Sample.db0) = Throw AccountDisabled /\
  AccountDisabled <> InvalidCredentials.
Proof. repeat split; try reflexivity. discriminate. Qed.

(** ** The store: unique lookups and the unique index on [token] *)

Section find_row.

Context {A : Type} (P : A -> Prop) `{!forall x, Decision (P x)}.

Lemma find_row_None (l : list A) :
  snd <$> list_find P l = None <-> forall x, x ∈ l -> ~ P x.
Proof.
  rewrite fmap_None, list_find_None, Forall_forall. reflexivity.
Qed.

Lemma find_row_Some (l : list A) (x : A) :
  snd <$> list_find P l = Some x -> x ∈ l /\ P x.
Proof.
  intros ([i y] & Hfind & ->)%fmap_Some.
  apply list_find_Some in Hfind as (Hl & HP & _).
  split; [eapply list_elem_of_lookup_2; exact Hl | exact HP].
Qed.

Lemma find_row_is_Some (l : list A) (x : A) :
  x ∈ l -> P x -> is_Some (snd <$> list_find P l).
Proof.
  intros Hx HP. apply fmap_is_Some. eapply list_find_elem_of; eauto.
Qed.

End find_row.

Lemma NoDup_fmap_eq {A B : Type} (f : A -> B) (l : list A) (x y : A) :
  NoDup (f <$> l) -> x ∈ l -> y ∈ l -> f x = f y -> x = y.
Proof.
  induction l as [|a l IH]; intros Hnd Hx Hy Hf.
  - inversion Hx.
  - rewrite fmap_cons in Hnd. apply NoDup_cons in Hnd as [Hnotin Hnd].
    apply elem_of_cons in Hx as [->|Hx];
      apply elem_of_cons in Hy as [->|Hy]; auto.
    + exfalso. apply Hnotin. rewrite Hf. apply list_elem_of_fmap_2. exact Hy.
    + exfalso. apply Hnotin. rewrite <- Hf. apply list_elem_of_fmap_2. exact Hx.
Qed.

Lemma NoDup_fmap_filter {A B : Type} (f : A -> B) (P : A -> Prop)
    `{!forall x, Decision (P x)} (l : list A) :
  NoDup (f <$> l) -> NoDup (f <$> filter P l).
Proof.
  intros Hnd. apply (sublist_NoDup _ (f <$> l)); [exact Hnd|].
  apply fmap_sublist. apply sublist_filter.
Qed.

Lemma by_token_None (tok : jwt.Token) (db : Db) :
  prisma.refreshToken.by_token tok db = None <->
  forall r, r ∈ refreshTokens db -> RefreshToken.token r <> tok.
Proof.
  apply (find_row_None (fun r => RefreshToken.token r = tok)).
Qed.

Lemma by_token_Some (tok : jwt.Token) (db : Db) (row : RefreshToken.t) :
  prisma.refreshToken.by_token tok db = Some row ->
  row ∈ refreshTokens db /\ RefreshToken.token row = tok.
Proof.
  apply (find_row_Some (fun r => RefreshToken.token r = tok)).
Qed.

Lemma create_unique (tok : jwt.Token) (uid : string) (e : Date) (db : Db) :
  unique_tokens db ->
  unique_tokens (snd (prisma.refreshToken.create tok uid e db)).
Proof.
  unfold unique_tokens, prisma.refreshToken.create. intros Hnd.
  destruct (prisma.refreshToken.by_token tok db) as [row|] eqn:Hfind;
    simpl; [exact Hnd|].
  rewrite fmap_app. apply NoDup_app. split; [exact Hnd|]. split.
  - intros x (r & -> & Hr)%list_elem_of_fmap Hin.
    apply list_elem_of_singleton in Hin. simpl in Hin.
    rewrite by_token_None in Hfind. exact (Hfind r Hr Hin).
  - apply NoDup_singleton.
Qed.

Lemma delete_unique (i : nat) (db : Db) :
  unique_tokens db -> unique_tokens (snd (prisma.refreshToken.delete i db)).
Proof.
  unfold unique_tokens, prisma.refreshToken.delete. intros Hnd.
  destruct (prisma.refreshToken.by_id i db); simpl; [|exact Hnd].
  apply NoDup_fmap_filter. exact Hnd.
Qed.

Lemma deleteMany_token_unique (tok : jwt.Token) (db : Db) :
  unique_tokens db ->
  unique_tokens (snd (prisma.refreshToken.deleteMany_token tok db)).
Proof. intros Hnd. apply NoDup_fmap_filter. exact Hnd. Qed.

Lemma deleteMany_userId_unique (uid : string) (db : Db) :
  unique_tokens db ->
  unique_tokens (snd (prisma.refreshToken.deleteMany_userId uid db)).
Proof. intros Hnd. apply NoDup_fmap_filter. exact Hnd. Qed.

(** Deleting the row found under a token leaves no row with that token. *)
Lemma by_token_delete_found (tok : jwt.Token) (db : Db) (row : RefreshToken.t) :
  unique_tokens db ->
  prisma.refreshToken.by_token tok db = Some row ->
  forall r,
    r ∈ filter (fun r => RefreshToken.id r <> RefreshToken.id row)
               (refreshTokens db) ->
    RefreshToken.token r <> tok.
Proof.
  intros Hnd [Hrow Htok]%by_token_Some r [Hid Hr]%list_elem_of_filter Heq.
  apply Hid. f_equal.
  eapply (NoDup_fmap_eq RefreshToken.token); eauto. congruence.
Qed.

(** ** The unique index is an invariant of the service *)

Lemma preserves_ret {A : Type} (I : Db -> Prop) (a : A) : preserves I (ret a).
Proof. intros db H. exact H. Qed.

Lemma preserves_throw {A : Type} (I : Db -> Prop) (e : Exn) :
  preserves I (@throw A e).
Proof. intros db H. exact H. Qed.

Lemma preserves_bind {A B : Type} (I : Db -> Prop) (m : Async A)
    (k : A -> Async B) :
  preserves I m -> (forall a, preserves I (k a)) -> preserves I (bind m k).
Proof.
  intros Hm Hk db H. unfold bind. specialize (Hm db H).
  destruct (m db) as [[a|e] db1]; simpl in *; [apply Hk; exact Hm | exact Hm].
Qed.

Lemma preserves_findUnique_email (I : Db -> Prop) (e : string) :
  preserves I (prisma.user.findUnique_email e).
Proof. intros db H. exact H. Qed.

Lemma preserves_findUnique_id (I : Db -> Prop) (i : string) :
  preserves I (prisma.user.findUnique_id i).
Proof. intros db H. exact H. Qed.

Lemma preserves_findUnique_include_user (I : Db -> Prop) (tok : jwt.Token) :
  preserves I (prisma.refreshToken.findUnique_include_user tok).
Proof.
  intros db H. unfold prisma.refreshToken.findUnique_include_user.
  destruct (prisma.refreshToken.by_token tok db) as [row|]; [|exact H].
  destruct (prisma.user.by_id (RefreshToken.userId row) db); exact H.
Qed.

Lemma update_passwordHash_unique (i : string) (h : bcrypt.Hashed) :
  preserves unique_tokens (prisma.user.update_passwordHash i h).
Proof.
  intros db H. unfold prisma.user.update_passwordHash.
  destruct (prisma.user.by_id i db); exact H.
Qed.

Create HintDb preserves.

#[local] Hint Resolve preserves_ret preserves_throw preserves_findUnique_email
  preserves_findUnique_id preserves_findUnique_include_user
  update_passwordHash_unique : preserves.

Section Invariant.

Variable config : Config.
Variable tz : TimeZone.

Lemma login_unique (email password : string) (rememberMe : bool) (now : Date) :
  preserves unique_tokens
    (AuthService.login config tz email password rememberMe now).
Proof.
  unfold AuthService.login.
  apply preserves_bind; [auto with preserves|]. intros [u|];
    [|auto with preserves].
  destruct (negb (User.active u)); [auto with preserves|].
  destruct (negb _); [auto with preserves|].
  apply preserves_bind; [|auto with preserves].
  intros db. apply create_unique.
Qed.

Lemma refreshAccessToken_unique (t : jwt.Token) (now : Date) :
  preserves unique_tokens (AuthService.refreshAccessToken config t now).
Proof.
  unfold AuthService.refreshAccessToken.
  destruct (jwt.verify _ _ _); [auto with preserves|].
  apply preserves_bind; [auto with preserves|]. intros [[row u]|];
    [|auto with preserves].
  case_bool_decide.
  { apply preserves_bind; [|auto with preserves].
    intros db. apply delete_unique. }
  destruct (negb (User.active u)); [auto with preserves|].
  apply preserves_bind; [intros db; apply delete_unique|]. intros _.
  apply preserves_bind; [intros db; apply create_unique|].
  auto with preserves.
Qed.

Lemma logout_unique (t : jwt.Token) :
  preserves unique_tokens (AuthService.logout t).
Proof. intros db. apply deleteMany_token_unique. Qed.

Lemma logoutAll_unique (uid : string) :
  preserves unique_tokens (AuthService.logoutAll uid).
Proof. intros db. apply deleteMany_userId_unique. Qed.

Lemma changePassword_unique (uid cur new salt : string) :
  preserves unique_tokens (AuthService.changePassword uid cur new salt).
Proof.
  unfold AuthService.changePassword.
  apply preserves_bind; [auto with preserves|]. intros [u|];
    [|auto with preserves].
  destruct (negb _); [auto with preserves|].
  apply preserves_bind; [auto with preserves|]. intros _.
  apply logoutAll_unique.
Qed.

Lemma adminResetPassword_unique (uid new salt : string) :
  preserves unique_tokens (AuthService.adminResetPassword uid new salt).
Proof.
  unfold AuthService.adminResetPassword.
  apply preserves_bind; [auto with preserves|]. intros [u|];
    [|auto with preserves].
  apply preserves_bind; [auto with preserves|]. intros _.
  apply logoutAll_unique.
Qed.

End Invariant.

Lemma no_sessions_unique (us : list User.t) (n : nat) :
  unique_tokens (mkDb us [] n).
Proof. apply NoDup_nil_2. Qed.

(** ** Refresh-token rotation *)

Section Rotation.

Variable config : Config.

(** What a successful [refreshAccessToken] has done. *)
Lemma refresh_Ok_inv (t : jwt.Token) (now : Date) (db db' : Db)
    (r : AuthService.RefreshResult) :
  AuthService.refreshAccessToken config t now db = (Ok r, db') ->
  exists row u,
    prisma.refreshToken.by_token t db = Some row /\
    prisma.user.by_id (RefreshToken.userId row) db = Some u /\
    ~ RefreshToken.expiresAt row < now /\
    User.active u = true /\
    r = AuthService.mkRefreshResult
          (AuthService.generateAccessToken config (payload_of u) now)
          (AuthService.generateRefreshToken config (payload_of u) now) /\
    db' = mkDb (users db)
            (filter (fun x => RefreshToken.id x <> RefreshToken.id row)
                    (refreshTokens db)
             ++ [RefreshToken.mk (nextId db)
                   (AuthService.generateRefreshToken config (payload_of u) now)
                   (User.id u) (now + 7 * 24 * 60 * 60 * 1000)])
            (S (nextId db)).
Proof.
  unfold AuthService.refreshAccessToken. intros H.
  destruct (jwt.verify t (refreshSecret config) now); [discriminate|].
  run_async.
  destruct (prisma.refreshToken.by_token t db) as [row|] eqn:Hrow;
    [|discriminate].
  destruct (prisma.user.by_id (RefreshToken.userId row) db) as [u|] eqn:Hu;
    [|discriminate].
  exists row, u. simpl in H.
  destruct (bool_decide (RefreshToken.expiresAt row < now)) eqn:Hexp.
  { destruct (prisma.refreshToken.by_id (RefreshToken.id row) db);
      discriminate. }
  apply bool_decide_eq_false in Hexp.
  destruct (User.active u) eqn:Hact; simpl in H; [|discriminate].
  destruct (prisma.refreshToken.by_id (RefreshToken.id row) db);
    [|discriminate].
  match type of H with
  | context [prisma.refreshToken.by_token ?tok ?d] =>
      destruct (prisma.refreshToken.by_token tok d); [discriminate|]
  end.
  simpl in H. injection H as <- <-. unfold payload_of. auto 10.
Qed.

(** Without a stored row, [refreshAccessToken] fails and changes
    nothing: with [InvalidRefreshToken] when the codec rejects the
    token, with [RefreshTokenNotFound] when the codec accepts it. *)
Lemma refresh_without_row (t : jwt.Token) (later : Date) (db : Db) :
  prisma.refreshToken.by_token t db = None ->
  AuthService.refreshAccessToken config t later db
  = (Throw (match jwt.verify t (refreshSecret config) later with
            | inr _ => RefreshTokenNotFound
            | inl _ => InvalidRefreshToken
            end), db).
Proof.
  intros Hnone. unfold AuthService.refreshAccessToken.
  destruct (jwt.verify t (refreshSecret config) later); [reflexivity|].
  run_async. rewrite Hnone. reflexivity.
Qed.

(** After [logout] no row holds the token. *)
Lemma logout_removes_row (t : jwt.Token) (db : Db) :
  AuthService.logout t db
  = (Ok tt, mkDb (users db)
              (filter (fun r => RefreshToken.token r <> t) (refreshTokens db))
              (nextId db)) /\
  prisma.refreshToken.by_token t (snd (AuthService.logout t db)) = None.
Proof.
  split; [reflexivity|].
  apply by_token_None. simpl.
  intros r [Hne _]%list_elem_of_filter. exact Hne.
Qed.

(** A token minted in a later clock second than [t] differs from [t]. *)
Lemma minted_in_later_second_fresh (j : jwt.Jws) (p : JwtPayload) (now : Date) :
  jwt.iat j < jwt.clockTimestamp now ->
  AuthService.generateRefreshToken config p now <> jwt.Signed j.
Proof.
  unfold AuthService.generateRefreshToken, jwt.sign. intros Hlt Heq.
  injection Heq as <-. simpl in Hlt. lia.
Qed.

(** Rotation where the minted token is a new one.  Under the unique index
    on [token]: when [refreshAccessToken t] succeeds and the refresh token
    it mints is not [t] itself, the row of [t] is deleted and a row for the
    minted token takes its place, and every later [refreshAccessToken t]
    fails without touching the store, with [RefreshTokenNotFound] whenever
    the codec still accepts [t].  The same failure follows [logout t]. *)
Theorem refresh_rotates_when_minted_token_differs (t : jwt.Token) :
  (forall (now : Date) (db db' : Db) (r : AuthService.RefreshResult),
     unique_tokens db ->
     AuthService.refreshAccessToken config t now db = (Ok r, db') ->
     AuthService.rr_refreshToken r <> t ->
     prisma.refreshToken.by_token t db' = None /\
     is_Some (prisma.refreshToken.by_token (AuthService.rr_refreshToken r) db') /\
     forall later : Date,
       AuthService.refreshAccessToken config t later db'
       = (Throw (match jwt.verify t (refreshSecret config) later with
                 | inr _ => RefreshTokenNotFound
                 | inl _ => InvalidRefreshToken
                 end), db')) /\
  (forall (db : Db) (later : Date),
     AuthService.refreshAccessToken config t later
       (snd (AuthService.logout t db))
     = (Throw (match jwt.verify t (refreshSecret config) later with
               | inr _ => RefreshTokenNotFound
               | inl _ => InvalidRefreshToken
               end), snd (AuthService.logout t db))).
Proof.
  split.
  - intros now db db' r Hnd Hok Hfresh.
    destruct (refresh_Ok_inv _ _ _ _ _ Hok)
      as (row & u & Hrow & Hu & Hexp & Hact & -> & ->).
    simpl in Hfresh.
    assert (Hgone : prisma.refreshToken.by_token t
              (mkDb (users db)
                 (filter (fun x => RefreshToken.id x <> RefreshToken.id row)
                         (refreshTokens db)
                  ++ [RefreshToken.mk (nextId db)
                        (AuthService.generateRefreshToken config (payload_of u) now)
                        (User.id u) (now + 7 * 24 * 60 * 60 * 1000)])
                 (S (nextId db))) = None).
    { apply by_token_None. simpl. intros x [Hx|Hx]%elem_of_app.
      - eapply by_token_delete_found; eauto.
      - apply list_elem_of_singleton in Hx as ->. exact Hfresh. }
    split; [exact Hgone|]. split.
    + apply (find_row_is_Some _ _
               (RefreshToken.mk (nextId db)
                  (AuthService.generateRefreshToken config (payload_of u) now)
                  (User.id u) (now + 7 * 24 * 60 * 60 * 1000))).
      * simpl. apply elem_of_app. right. apply list_elem_of_singleton.
        reflexivity.
      * reflexivity.
    + intros later. apply refresh_without_row. exact Hgone.
  - intros db later. apply refresh_without_row.
    apply logout_removes_row.
Qed.

End Rotation.

Lemma sample_db1_unique : unique_tokens Sample.db1.
Proof.
  unfold unique_tokens.
  apply (bool_decide_unpack (NoDup (RefreshToken.token <$> refreshTokens Sample.db1))).
  vm_compute. exact I.
Defined.

Lemma refresh_rotates_when_minted_token_differs_witness :
  exists r db2,
    AuthService.refreshAccessToken Sample.config Sample.R1 6000 Sample.db1
      = (Ok r, db2) /\
    prisma.refreshToken.by_token Sample.R1 db2 = None /\
    AuthService.refreshAccessToken Sample.config Sample.R1 7000 db2
      = (Throw RefreshTokenNotFound, db2).
Proof.
  eexists _, _. split; [vm_compute; reflexivity|].
  edestruct (proj1 (refresh_rotates_when_minted_token_differs Sample.config
                      Sample.R1) 6000 Sample.db1) as (Hgone & _ & Hlater).
  - exact sample_db1_unique.
  - vm_compute. reflexivity.
  - vm_compute. discriminate.
  - split; [exact Hgone | exact (Hlater 7000)].
Defined.

(** C2, at the input where rotation does not rotate.  The token is a
    function of the claims and of the clock second, so a refresh in the
    second in which the presented token was minted mints the same string
    again: the row that replaces the deleted one holds the presented
    token, and presenting it once more succeeds instead of failing.
    [Sample.R1] is the token John's login at 5000 returned, [Sample.db1]
    the store that login left; the store satisfies the unique index and
    the codec accepts the token at both instants. *)
Theorem refresh_same_second_reuses_token :
  exists r db2 r' db3,
    unique_tokens Sample.db1 /\
    prisma.refreshToken.by_token Sample.R1 Sample.db1 = Some SampleRows.row1 /\
    AuthService.refreshAccessToken Sample.config Sample.R1 5999 Sample.db1
      = (Ok r, db2) /\
    AuthService.rr_refreshToken r = Sample.R1 /\
    is_Some (prisma.refreshToken.by_token Sample.R1 db2) /\
    AuthService.refreshAccessToken Sample.config Sample.R1 7000 db2
      = (Ok r', db3).
Proof.
  eexists _, _, _, _. split; [exact sample_db1_unique|].
  split; [vm_compute; reflexivity|].
  split; [vm_compute; reflexivity|].
  split; [reflexivity|].
  split; [vm_compute; eexists; reflexivity|].
  vm_compute. reflexivity.
Qed.

(** ** Codec failures in [refreshAccessToken] *)

Section RefreshCodecFailures.

Variable config : Config.

(** C3 (as amended).  [refreshAccessToken] catches whatever [jwt.verify]
    throws and answers [InvalidRefreshToken]: a bad signature and a
    passed expiry give the same error, and the store is not touched. *)
Theorem refresh_collapses_codec_failures
    (t : jwt.Token) (now : Date) (db : Db) (e : jwt.Error) :
  jwt.verify t (refreshSecret config) now = inl e ->
  AuthService.refreshAccessToken config t now db
  = (Throw InvalidRefreshToken, db).
Proof.
  intros Hverify. unfold AuthService.refreshAccessToken.
  rewrite Hverify. reflexivity.
Qed.

End RefreshCodecFailures.

Lemma refresh_collapses_codec_failures_witness :
  AuthService.refreshAccessToken Sample.config SampleTokens.forged 6000 Sample.db1
    = (Throw InvalidRefreshToken, Sample.db1) /\
  AuthService.refreshAccessToken Sample.config Sample.R1
    SampleTokens.after_expiry Sample.db1
    = (Throw InvalidRefreshToken, Sample.db1).
Proof.
  split.
  - apply (refresh_collapses_codec_failures Sample.config SampleTokens.forged
             6000 Sample.db1 jwt.JsonWebTokenError).
    reflexivity.
  - apply (refresh_collapses_codec_failures Sample.config Sample.R1
             SampleTokens.after_expiry Sample.db1 jwt.TokenExpiredError).
    reflexivity.
Defined.

(** C3 as stated fails: a forged token and a correctly signed, expired
    token are answered by [refreshAccessToken] with one and the same
    error, which is not the "expired" one. *)
Lemma refresh_codec_failures_counterexample :
  jwt.verify SampleTokens.forged (refreshSecret Sample.config)
    SampleTokens.after_expiry = inl jwt.JsonWebTokenError /\
  jwt.verify Sample.R1 (refreshSecret Sample.config)
    SampleTokens.after_expiry = inl jwt.TokenExpiredError /\
  fst (AuthService.refreshAccessToken Sample.config SampleTokens.forged
         SampleTokens.after_expiry Sample.db1)
  = fst (AuthService.refreshAccessToken Sample.config Sample.R1
           SampleTokens.after_expiry Sample.db1) /\
  fst (AuthService.refreshAccessToken Sample.config Sample.R1
         SampleTokens.after_expiry Sample.db1) = Throw InvalidRefreshToken /\
  InvalidRefreshToken <> RefreshTokenExpired.
Proof. repeat split; try reflexivity. discriminate. Qed.

(** ** Password change *)

Lemma by_id_update_passwordHash (i : string) (h : bcrypt.Hashed)
    (us : list User.t) (u : User.t) :
  snd <$> list_find (fun u => User.id u = i) us = Some u ->
  snd <$> list_find (fun u => User.id u = i)
            ((fun u => if decide (User.id u = i)
                       then prisma.user.set_passwordHash h u else u) <$> us)
  = Some (prisma.user.set_passwordHash h u).
Proof.
  induction us as [|a us IH]; csimpl; [discriminate|].
  destruct (decide (User.id a = i)) as [Ha|Ha]; simpl.
  - intros [= ->]. rewrite decide_True by exact Ha. reflexivity.
  - rewrite decide_False by exact Ha.
    destruct (list_find (fun u => User.id u = i) us) as [[k x]|]; simpl in *;
      [|discriminate].
    intros [= ->]. specialize (IH eq_refl).
    destruct (list_find _ _) as [[k' x']|]; simpl in *; [|discriminate].
    congruence.
Qed.

Section ChangePassword.

Variable config : Config.

(** C4.  For a stored principal: a wrong current secret makes
    [changePassword] fail and leaves the whole store (hashes and Session
    rows) as it was; a right one stores the hash of the new secret,
    deletes every Session row of the principal, and from then on every
    refresh fails for each token that had no row of another principal
    (the store keeps one row per token). *)
Theorem changePassword_all_or_nothing
    (userId currentPassword newPassword salt : string) (db : Db) (u : User.t) :
  prisma.user.by_id userId db = Some u ->
  (AuthService.comparePassword currentPassword (User.passwordHash u) = false ->
     AuthService.changePassword userId currentPassword newPassword salt db
     = (Throw (AppErr (BadRequestError "Current password is incorrect")), db)) /\
  (AuthService.comparePassword currentPassword (User.passwordHash u) = true ->
     exists db',
       AuthService.changePassword userId currentPassword newPassword salt db
         = (Ok tt, db') /\
       User.passwordHash <$> prisma.user.by_id userId db'
         = Some (AuthService.hashPassword salt newPassword) /\
       (forall r, r ∈ refreshTokens db' -> RefreshToken.userId r <> userId) /\
       (forall (t : jwt.Token) (later : Date),
          unique_tokens db ->
          (forall row, prisma.refreshToken.by_token t db = Some row ->
                       RefreshToken.userId row = userId) ->
          AuthService.refreshAccessToken config t later db'
          = (Throw (match jwt.verify t (refreshSecret config) later with
                    | inr _ => RefreshTokenNotFound
                    | inl _ => InvalidRefreshToken
                    end), db'))).
Proof.
  intros Hu. unfold AuthService.changePassword, AuthService.logoutAll.
  run_async. rewrite Hu. split.
  - intros ->. reflexivity.
  - intros ->. simpl. rewrite Hu. simpl. eexists. split; [reflexivity|].
    split; [|split].
    + unfold prisma.user.by_id in *. simpl.
      rewrite (by_id_update_passwordHash _ _ _ _ Hu). reflexivity.
    + simpl. intros r [Hne _]%list_elem_of_filter. exact Hne.
    + intros t later Hnd Hown.
      apply refresh_without_row. apply by_token_None. simpl.
      intros r [Hne Hr]%list_elem_of_filter Heq. apply Hne.
      destruct (find_row_is_Some (fun x => RefreshToken.token x = t)
                  (refreshTokens db) r Hr Heq) as [row Hfound].
      rewrite <- (Hown row Hfound). f_equal.
      apply by_token_Some in Hfound as [Hrow Htok].
      apply (NoDup_fmap_eq RefreshToken.token (refreshTokens db));
        [exact Hnd | exact Hr | exact Hrow | congruence].
Qed.

End ChangePassword.

Lemma changePassword_all_or_nothing_witness :
  AuthService.changePassword "u1" "wrong" "Client456!" "salt9" Sample.db1
    = (Throw (AppErr (BadRequestError "Current password is incorrect")),
       Sample.db1) /\
  exists db',
    AuthService.changePassword "u1" "Client123!" "Client456!" "salt9" Sample.db1
      = (Ok tt, db') /\
    User.passwordHash <$> prisma.user.by_id "u1" db'
      = Some (AuthService.hashPassword "salt9" "Client456!") /\
    AuthService.refreshAccessToken Sample.config Sample.R1 6000 db'
      = (Throw RefreshTokenNotFound, db').
Proof.
  split.
  - apply (proj1 (changePassword_all_or_nothing Sample.config "u1" "wrong"
             "Client456!" "salt9" Sample.db1 Sample.john eq_refl)).
    reflexivity.
  - destruct (proj2 (changePassword_all_or_nothing Sample.config "u1"
                "Client123!" "Client456!" "salt9" Sample.db1 Sample.john
                eq_refl) eq_refl)
      as (db' & Hok & Hhash & _ & Hrefresh).
    exists db'. split; [exact Hok|]. split; [exact Hhash|].
    refine (Hrefresh Sample.R1 6000 sample_db1_unique _).
    intros row [= <-]. reflexivity.
Defined.

(** ** Login *)

Section Login.

Variable config : Config.
Variable tz : TimeZone.

(** Where the local offset at the resulting local time is the one in
    effect now, [setDate] moves the time value by whole days. *)
Lemma addDays_same_offset (d : Date) (n : Z) :
  LocalTZA_local tz (d + LocalTZA_utc tz d + n * msPerDay) = LocalTZA_utc tz d ->
  addDays tz d n = d + n * msPerDay.
Proof. unfold addDays. simpl. intros ->. lia. Qed.

(** Login where the minted refresh token is not stored yet.  A login with
    the right secret on an active account, at a moment when no Session row
    holds the refresh token it mints, appends exactly one Session row,
    owned by the principal and expiring 30 local calendar days from now
    with [rememberMe] and 7 without, which is [now] plus that many times
    24 hours when the local offset is the same at both ends; both tokens
    are signed over the principal's id, email and role, and the returned
    summary is id, email, name and role. *)
Theorem login_creates_one_session
    (email password : string) (rememberMe : bool) (now : Date) (db : Db)
    (u : User.t) :
  prisma.user.by_email (toLowerCase email) db = Some u ->
  User.active u = true ->
  AuthService.comparePassword password (User.passwordHash u) = true ->
  prisma.refreshToken.by_token
    (AuthService.generateRefreshToken config (payload_of u) now) db = None ->
  exists (access refresh : jwt.Jws) (row : RefreshToken.t),
    AuthService.login config tz email password rememberMe now db
    = (Ok (AuthService.mkLoginResult (jwt.Signed access) (jwt.Signed refresh)
             (AuthService.mkPublicUser (User.id u) (User.email u)
                (User.name u) (User.role u))),
       mkDb (users db) (refreshTokens db ++ [row]) (S (nextId db))) /\
    RefreshToken.token row = jwt.Signed refresh /\
    RefreshToken.userId row = User.id u /\
    RefreshToken.expiresAt row
      = addDays tz now (if rememberMe then 30 else 7) /\
    (LocalTZA_local tz
       (now + LocalTZA_utc tz now + (if rememberMe then 30 else 7) * msPerDay)
     = LocalTZA_utc tz now ->
     RefreshToken.expiresAt row
     = now + (if rememberMe then 30 else 7) * msPerDay) /\
    jwt.key access = accessSecret config /\
    jwt.key refresh = refreshSecret config /\
    jwt.claims access = mkJwtPayload (User.id u) (User.email u) (User.role u) /\
    jwt.claims refresh = mkJwtPayload (User.id u) (User.email u) (User.role u).
Proof.
  intros Hu Hact Hpw Hfree.
  unfold AuthService.login. run_async. rewrite Hu, Hact, Hpw. simpl.
  fold (payload_of u). rewrite Hfree. simpl.
  unfold AuthService.generateAccessToken, AuthService.generateRefreshToken,
    jwt.sign.
  eexists _, _, _. split; [reflexivity|]. simpl.
  split; [reflexivity|]. split; [reflexivity|].
  split; [destruct rememberMe; reflexivity|].
  split; [|repeat split].
  intros Hsame. destruct rememberMe; apply addDays_same_offset; exact Hsame.
Qed.

End Login.

(** In UTC the 30 days are 30 times 24 hours; across the clock change of
    [SampleZones.spring_forward] the 7 days are an hour short of 7 times
    24 hours. *)
Lemma login_creates_one_session_witness :
  (exists (access refresh : jwt.Jws) (row : RefreshToken.t),
     AuthService.login Sample.config UTC "John@Example.com" "Client123!" true
       5000 Sample.db0
     = (Ok (AuthService.mkLoginResult (jwt.Signed access) (jwt.Signed refresh)
              (AuthService.mkPublicUser "u1" "john@example.com" "John" CLIENT)),
        mkDb (users Sample.db0) [row] 1) /\
     RefreshToken.expiresAt row = 5000 + 30 * msPerDay /\
     jwt.claims access = Sample.john_payload /\
     jwt.claims refresh = Sample.john_payload) /\
  (exists (access refresh : jwt.Jws) (row : RefreshToken.t),
     AuthService.login Sample.config SampleZones.spring_forward
       "John@Example.com" "Client123!" false 5000 Sample.db0
     = (Ok (AuthService.mkLoginResult (jwt.Signed access) (jwt.Signed refresh)
              (AuthService.mkPublicUser "u1" "john@example.com" "John" CLIENT)),
        mkDb (users Sample.db0) [row] 1) /\
     RefreshToken.expiresAt row = 5000 + 7 * msPerDay - 3600000).
Proof.
  split.
  - destruct (login_creates_one_session Sample.config UTC "John@Example.com"
                "Client123!" true 5000 Sample.db0 Sample.john
                eq_refl eq_refl eq_refl eq_refl)
      as (access & refresh & row & Hlogin & _ & _ & _ & Hexp & _ & _ & Ha & Hr).
    exists access, refresh, row.
    split; [exact Hlogin|]. split; [exact (Hexp eq_refl)|].
    split; [exact Ha | exact Hr].
  - destruct (login_creates_one_session Sample.config
                SampleZones.spring_forward "John@Example.com"
                "Client123!" false 5000 Sample.db0 Sample.john
                eq_refl eq_refl eq_refl eq_refl)
      as (access & refresh & row & Hlogin & _ & _ & Hexp & _).
    exists access, refresh, row.
    split; [exact Hlogin|]. rewrite Hexp. reflexivity.
Defined.

(** C5, at the input where a correct login creates no Session.  John logs
    in a second time within the clock second of his first login
    ([Sample.db1] is the store the first one left).  The secret is right
    and the account active, the minted refresh token is the string already
    stored, the unique index refuses the row, and the call fails with the
    store's error, leaving the store as it was. *)
Theorem login_same_second_creates_no_session :
  prisma.user.by_email (toLowerCase "john@example.com") Sample.db1
    = Some Sample.john /\
  User.active Sample.john = true /\
  AuthService.comparePassword "Client123!" (User.passwordHash Sample.john)
    = true /\
  AuthService.login Sample.config UTC "john@example.com" "Client123!" false 5400
    Sample.db1
  = (Throw (PrismaErr "P2002"), Sample.db1).
Proof. repeat split; vm_compute; reflexivity. Qed.

(** ** The access guard: [authenticate] *)

Section Authenticate.

Variable config : Config.

(** C6.  [authenticate] answers 401 in three distinguishable ways: "No
    token provided" when the header carries no bearer token (no header,
    another scheme, or nothing after "Bearer "), "Invalid token" when the
    presented token's signature does not verify under the access-token
    key, and "Token expired" when it verifies and the expiry has passed. *)
Theorem authenticate_failure_modes (req : Request) (now : Date) (db : Db) :
  (middleware.bearerToken (authorization req) = None \/
   middleware.bearerToken (authorization req) = Some (jwt.Malformed "") ->
     middleware.authenticate config req now db = next_error NoTokenProvided) /\
  (forall token : jwt.Token,
     middleware.bearerToken (authorization req) = Some token ->
     token <> jwt.Malformed "" ->
     ~ signed_with (accessSecret config) token ->
     middleware.authenticate config req now db = next_error InvalidToken) /\
  (forall j : jwt.Jws,
     middleware.bearerToken (authorization req) = Some (jwt.Signed j) ->
     jwt.key j = accessSecret config ->
     jwt.exp j <= jwt.clockTimestamp now ->
     middleware.authenticate config req now db = next_error TokenExpired) /\
  (forall e, e ∈ [NoTokenProvided; InvalidToken; TokenExpired] ->
     exists msg, e = AppErr (UnauthorizedError msg)) /\
  NoTokenProvided <> InvalidToken /\
  NoTokenProvided <> TokenExpired /\
  InvalidToken <> TokenExpired.
Proof.
  unfold middleware.authenticate, middleware.authenticate_try.
  split; [|split; [|split; [|split]]].
  - intros [-> | ->]; reflexivity.
  - intros token -> Hne Hsig.
    destruct token as [j|text]; simpl in *.
    + rewrite bool_decide_eq_false_2 by exact Hsig. reflexivity.
    + destruct text; [congruence | reflexivity].
  - intros j -> Hkey Hexp. simpl.
    rewrite bool_decide_eq_true_2 by exact Hkey.
    rewrite bool_decide_eq_true_2 by exact Hexp. reflexivity.
  - intros e He. repeat (apply elem_of_cons in He as [-> | He]);
      [eexists; reflexivity .. | inversion He].
  - repeat split; discriminate.
Qed.

(** C7.  With a validly signed, unexpired access token, [authenticate]
    looks the principal up by the id in the token: it fails with "User
    not found or inactive" when there is no such principal or its active
    flag is false, and lets the request through, with the token's claims
    attached, exactly when the principal exists and is active. *)
Theorem authenticate_rechecks_principal
    (req : Request) (now : Date) (db : Db) (token : jwt.Token)
    (payload : JwtPayload) :
  middleware.bearerToken (authorization req) = Some token ->
  jwt.verify token (accessSecret config) now = inr payload ->
  (prisma.user.by_id (userId payload) db = None ->
     middleware.authenticate config req now db
     = next_error UserNotFoundOrInactive) /\
  (forall u, prisma.user.by_id (userId payload) db = Some u ->
     User.active u = false ->
     middleware.authenticate config req now db
     = next_error UserNotFoundOrInactive) /\
  (forall u, prisma.user.by_id (userId payload) db = Some u ->
     User.active u = true ->
     middleware.authenticate config req now db
     = next (middleware.set_user req payload)) /\
  (forall req', middleware.authenticate config req now db = next req' ->
     exists u, prisma.user.by_id (userId payload) db = Some u /\
               User.active u = true).
Proof.
  intros Htok Hverify.
  unfold middleware.authenticate, middleware.authenticate_try.
  rewrite Htok.
  assert (Htruthy : jwt.truthy token = true).
  { destruct token as [j|text]; [reflexivity | discriminate]. }
  rewrite Htruthy, Hverify. simpl. run_async.
  split; [|split; [|split]].
  - intros ->. reflexivity.
  - intros u -> ->. reflexivity.
  - intros u -> ->. reflexivity.
  - intros req'. destruct (prisma.user.by_id (userId payload) db) as [u|];
      [|discriminate].
    destruct (User.active u) eqn:Hact; [|discriminate].
    intros _. exists u. split; [reflexivity | exact Hact].
Qed.

(** C10.  What [authenticate] attaches to the request are the claims
    embedded in the presented token, whatever the store says about the
    principal's email and role; of the store it reads only whether the
    principal exists and is active, so two stores that agree on that give
    the same outcome, and [requireRole] then decides on the token's role. *)
Theorem authenticate_attaches_token_claims
    (req : Request) (now : Date) (db : Db) :
  (forall req', middleware.authenticate config req now db = next req' ->
     exists j : jwt.Jws,
       middleware.bearerToken (authorization req) = Some (jwt.Signed j) /\
       req' = middleware.set_user req (jwt.claims j) /\
       user req' = Some (jwt.claims j) /\
       forall roles,
         middleware.requireRole roles req'
         = if bool_decide (role (jwt.claims j) ∈ roles) then next req'
           else next_error (AppErr (ForbiddenError "Insufficient permissions"))) /\
  (forall db',
     (forall i, User.active <$> prisma.user.by_id i db
                = User.active <$> prisma.user.by_id i db') ->
     middleware.authenticate config req now db
     = middleware.authenticate config req now db').
Proof.
  unfold middleware.authenticate, middleware.authenticate_try.
  destruct (middleware.bearerToken (authorization req)) as [token|];
    [|split; [discriminate | reflexivity]].
  destruct token as [j|text]; simpl;
    [|destruct text; split; try discriminate; reflexivity].
  destruct (bool_decide (jwt.key j = accessSecret config));
    [|split; [discriminate | reflexivity]].
  destruct (bool_decide (jwt.exp j <= jwt.clockTimestamp now));
    [split; [discriminate | reflexivity]|].
  run_async. split.
  - intros req'.
    destruct (prisma.user.by_id (userId (jwt.claims j)) db) as [u|];
      [|discriminate].
    destruct (User.active u); [|discriminate].
    simpl. intros [= <-]. exists j. repeat split.
    intros roles. unfold middleware.requireRole. simpl.
    destruct (bool_decide (role (jwt.claims j) ∈ roles)); reflexivity.
  - intros db' Hagree. specialize (Hagree (userId (jwt.claims j))).
    destruct (prisma.user.by_id (userId (jwt.claims j)) db) as [u|],
             (prisma.user.by_id (userId (jwt.claims j)) db') as [u'|];
      simpl in *; try discriminate; try reflexivity.
    injection Hagree as ->. destruct (User.active u'); reflexivity.
Qed.

End Authenticate.

Lemma authenticate_failure_modes_witness :
  middleware.authenticate Sample.config SampleRequests.no_header 6000 Sample.db0
    = next_error NoTokenProvided /\
  middleware.authenticate Sample.config
    (SampleRequests.bearer SampleRequests.wrong_key) 6000 Sample.db0
    = next_error InvalidToken /\
  middleware.authenticate Sample.config
    (SampleRequests.bearer SampleRequests.A1) 905000 Sample.db0
    = next_error TokenExpired.
Proof.
  split; [|split].
  - apply (proj1 (authenticate_failure_modes Sample.config
             SampleRequests.no_header 6000 Sample.db0)).
    left. reflexivity.
  - apply (proj1 (proj2 (authenticate_failure_modes Sample.config
             (SampleRequests.bearer SampleRequests.wrong_key) 6000 Sample.db0))
             SampleRequests.wrong_key).
    + reflexivity.
    + discriminate.
    + vm_compute. discriminate.
  - eapply (proj1 (proj2 (proj2 (authenticate_failure_modes Sample.config
              (SampleRequests.bearer SampleRequests.A1) 905000 Sample.db0)))).
    + reflexivity.
    + reflexivity.
    + vm_compute. discriminate.
Defined.

Lemma authenticate_rechecks_principal_witness :
  middleware.authenticate Sample.config
    (SampleRequests.bearer SampleRequests.A1) 6000 SampleRequests.db_without_john
    = next_error UserNotFoundOrInactive /\
  middleware.authenticate Sample.config
    (SampleRequests.bearer SampleRequests.sarah_token) 6000 Sample.db0
    = next_error UserNotFoundOrInactive /\
  middleware.authenticate Sample.config
    (SampleRequests.bearer SampleRequests.A1) 6000 Sample.db0
    = next (middleware.set_user (SampleRequests.bearer SampleRequests.A1)
              Sample.john_payload).
Proof.
  split; [|split].
  - apply (proj1 (authenticate_rechecks_principal Sample.config
             (SampleRequests.bearer SampleRequests.A1) 6000
             SampleRequests.db_without_john SampleRequests.A1
             Sample.john_payload eq_refl eq_refl)).
    reflexivity.
  - apply (proj1 (proj2 (authenticate_rechecks_principal Sample.config
             (SampleRequests.bearer SampleRequests.sarah_token) 6000
             Sample.db0 SampleRequests.sarah_token
             (mkJwtPayload "u2" "sarah@example.com" CLIENT) eq_refl eq_refl))
             Sample.sarah); reflexivity.
  - apply (proj1 (proj2 (proj2 (authenticate_rechecks_principal Sample.config
             (SampleRequests.bearer SampleRequests.A1) 6000
             Sample.db0 SampleRequests.A1 Sample.john_payload
             eq_refl eq_refl))) Sample.john); reflexivity.
Defined.

Lemma sample_stores_agree_on_active (i : string) :
  User.active <$> prisma.user.by_id i Sample.db0
  = User.active <$> prisma.user.by_id i SampleRequests.db_promoted.
Proof.
  unfold prisma.user.by_id. simpl.
  repeat (case_decide; simpl; try reflexivity).
Defined.

(** John's token still says [CLIENT] after the store made him [ADMIN]:
    the guard attaches [CLIENT] and an [ADMIN]-only route refuses him. *)
Lemma authenticate_attaches_token_claims_witness :
  exists req',
    middleware.authenticate Sample.config
      (SampleRequests.bearer SampleRequests.A1) 6000 SampleRequests.db_promoted
      = next req' /\
    user req' = Some Sample.john_payload /\
    middleware.requireRole [ADMIN] req'
      = next_error (AppErr (ForbiddenError "Insufficient permissions")) /\
    middleware.authenticate Sample.config
      (SampleRequests.bearer SampleRequests.A1) 6000 Sample.db0
    = middleware.authenticate Sample.config
        (SampleRequests.bearer SampleRequests.A1) 6000
        SampleRequests.db_promoted.
Proof.
  eexists. split; [vm_compute; reflexivity|].
  destruct (proj1 (authenticate_attaches_token_claims Sample.config
                     (SampleRequests.bearer SampleRequests.A1) 6000
                     SampleRequests.db_promoted) _ eq_refl)
    as (j & Hj & _ & Huser & Hrole).
  injection Hj as <-.
  split; [exact Huser|]. split; [exact (Hrole [ADMIN])|].
  apply (proj2 (authenticate_attaches_token_claims Sample.config
                  (SampleRequests.bearer SampleRequests.A1) 6000 Sample.db0)).
  exact sample_stores_agree_on_active.
Defined.

(** ** The access guard: [requireOwnership] *)

Section Ownership.

Variables (paramName : string) (req : Request) (u : JwtPayload).
Hypothesis authenticated : user req = Some u.

(** The owner id the guard finds in a request: the path parameter when
    there is a non-empty one; an object when there is no path parameter
    and the name is one that plain objects inherit; the body field
    otherwise. *)
Lemma resourceClientId_param (owner : string) :
  params req !! paramName = Some owner -> owner <> "" ->
  middleware.resourceClientId paramName req = JsString owner.
Proof.
  intros Hp Hne. unfold middleware.resourceClientId, js_or, get_property.
  rewrite Hp. simpl. rewrite bool_decide_eq_false_2 by exact Hne.
  reflexivity.
Qed.

Lemma resourceClientId_inherited :
  params req !! paramName = None -> paramName ∈ Object_prototype ->
  middleware.resourceClientId paramName req = JsObject.
Proof.
  intros Hp Hin. unfold middleware.resourceClientId, js_or, get_property.
  rewrite Hp. rewrite bool_decide_eq_true_2 by exact Hin. reflexivity.
Qed.

Lemma resourceClientId_body :
  params req !! paramName = Some "" \/
  (params req !! paramName = None /\ paramName ∉ Object_prototype) ->
  middleware.resourceClientId paramName req
  = match body req with
    | None => JsUndefined
    | Some b => get_property id b paramName
    end.
Proof.
  intros [Hp|[Hp Hnot]]; unfold middleware.resourceClientId, js_or;
    unfold get_property at 1; rewrite Hp; [reflexivity|].
  rewrite bool_decide_eq_false_2 by exact Hnot. reflexivity.
Qed.

(** C8.  For an authenticated request, [requireOwnership] lets an
    [ADMIN] through whatever the request names as owner; for a [CLIENT]
    it fails with 403 whenever the owner id found in the request (the
    non-empty path parameter, or else the body field) is not the
    principal's own id. *)
Theorem requireOwnership_admin_bypass_client_mismatch :
  (role u = ADMIN -> middleware.requireOwnership paramName req = next req) /\
  (role u = CLIENT ->
     (forall owner : string,
        params req !! paramName = Some owner ->
        owner <> "" -> owner <> userId u ->
        middleware.requireOwnership paramName req
        = next_error CannotAccessOthersData) /\
     (forall (b : gmap string JsValue) (owner : string),
        params req !! paramName = None \/ params req !! paramName = Some "" ->
        body req = Some b -> b !! paramName = Some (JsString owner) ->
        owner <> "" -> owner <> userId u ->
        middleware.requireOwnership paramName req
        = next_error CannotAccessOthersData) /\
     (truthy (middleware.resourceClientId paramName req) = true ->
      middleware.resourceClientId paramName req <> JsString (userId u) ->
      middleware.requireOwnership paramName req
      = next_error CannotAccessOthersData)).
Proof.
  unfold middleware.requireOwnership. rewrite authenticated.
  split.
  - intros ->. reflexivity.
  - intros ->. simpl.
    assert (Hgen : forall v,
              middleware.resourceClientId paramName req = v ->
              truthy v = true -> v <> JsString (userId u) ->
              (if (truthy (middleware.resourceClientId paramName req)
                   && negb (bool_decide
                              (middleware.resourceClientId paramName req
                               = JsString (userId u))))%bool
               then next_error CannotAccessOthersData else next req)
              = next_error CannotAccessOthersData).
    { intros v -> -> Hne. rewrite bool_decide_eq_false_2 by exact Hne.
      reflexivity. }
    split; [|split].
    + intros owner Hp Hne Hother.
      apply (Hgen (JsString owner)).
      * apply resourceClientId_param; assumption.
      * simpl. rewrite bool_decide_eq_false_2 by exact Hne. reflexivity.
      * congruence.
    + intros b owner Hp Hb Hfield Hne Hother.
      assert (Hcases :
        paramName ∈ Object_prototype /\ params req !! paramName = None \/
        (params req !! paramName = Some "" \/
         (params req !! paramName = None /\ paramName ∉ Object_prototype))).
      { destruct Hp as [Hp|Hp]; [|right; left; exact Hp].
        destruct (decide (paramName ∈ Object_prototype)); [left|right; right];
          split; assumption. }
      destruct Hcases as [[Hin Hnone]|Hbody].
      * apply (Hgen JsObject); [|reflexivity|discriminate].
        apply resourceClientId_inherited; assumption.
      * apply (Hgen (JsString owner)).
        -- rewrite (resourceClientId_body Hbody), Hb. unfold get_property.
           rewrite Hfield. reflexivity.
        -- simpl. rewrite bool_decide_eq_false_2 by exact Hne. reflexivity.
        -- congruence.
    + intros Ht Hne. exact (Hgen _ eq_refl Ht Hne).
Qed.


End Ownership.

Lemma requireOwnership_admin_bypass_client_mismatch_witness :
  middleware.requireOwnership_default
    (SampleOwnership.on_sarah SampleOwnership.admin_payload)
    = next (SampleOwnership.on_sarah SampleOwnership.admin_payload) /\
  middleware.requireOwnership_default
    (SampleOwnership.on_sarah Sample.john_payload)
    = next_error CannotAccessOthersData /\
  middleware.requireOwnership_default
    (SampleOwnership.on_sarah_in_body Sample.john_payload)
    = next_error CannotAccessOthersData.
Proof.
  split; [|split].
  - apply (proj1 (requireOwnership_admin_bypass_client_mismatch "clientId"
             (SampleOwnership.on_sarah SampleOwnership.admin_payload)
             SampleOwnership.admin_payload eq_refl)).
    reflexivity.
  - apply (proj1 (proj2 (requireOwnership_admin_bypass_client_mismatch
             "clientId" (SampleOwnership.on_sarah Sample.john_payload)
             Sample.john_payload eq_refl) eq_refl) "u2").
    + vm_compute. reflexivity.
    + discriminate.
    + discriminate.
  - apply (proj1 (proj2 (proj2 (requireOwnership_admin_bypass_client_mismatch
             "clientId" (SampleOwnership.on_sarah_in_body Sample.john_payload)
             Sample.john_payload eq_refl) eq_refl))
             {[ "clientId" := JsString "u2" ]} "u2").
    + left. vm_compute. reflexivity.
    + reflexivity.
    + vm_compute. reflexivity.
    + discriminate.
    + discriminate.
Defined.

Lemma clientId_not_inherited : "clientId" ∉ Object_prototype.
Proof.
  apply (bool_decide_eq_false_1 ("clientId" ∈ Object_prototype)).
  vm_compute. reflexivity.
Defined.



(** * Further properties of the service, the guard and the routes *)

(** ** Lookups after a bulk delete or an update *)

Section find_after.

Context {A : Type} (P Q : A -> Prop)
  `{!forall x, Decision (P x)} `{!forall x, Decision (Q x)}.

(** A row that is found and kept by the filter is still the one found. *)
Lemma find_row_filter_Some (l : list A) (x : A) :
  snd <$> list_find P l = Some x -> Q x ->
  snd <$> list_find P (filter Q l) = Some x.
Proof.
  induction l as [|a l IH]; csimpl; [discriminate|].
  intros Hfind HQ. rewrite filter_cons.
  destruct (decide (P a)) as [HPa|HPa]; simpl in Hfind.
  - injection Hfind as ->. rewrite decide_True by exact HQ. csimpl.
    rewrite decide_True by exact HPa. reflexivity.
  - assert (Hrec : snd <$> list_find P l = Some x).
    { destruct (list_find P l) as [[k y]|]; simpl in *; [|discriminate].
      exact Hfind. }
    specialize (IH Hrec HQ).
    destruct (decide (Q a)); [|exact IH].
    csimpl. rewrite decide_False by exact HPa.
    destruct (list_find P (filter Q l)) as [[k y]|]; simpl in *;
      [exact IH | discriminate].
Qed.

Lemma find_row_filter_None (l : list A) :
  snd <$> list_find P l = None -> snd <$> list_find P (filter Q l) = None.
Proof.
  rewrite !find_row_None. intros Hno x [_ Hx]%list_elem_of_filter. auto.
Qed.

Lemma filter_all (l : list A) : (forall x, x ∈ l -> Q x) -> filter Q l = l.
Proof.
  induction l as [|a l IH]; intros Hall; [reflexivity|].
  rewrite filter_cons, decide_True by (apply Hall; left).
  f_equal. apply IH. intros x Hx. apply Hall. right. exact Hx.
Qed.

End find_after.

(** A lookup commutes with an update that does not change what the lookup
    tests. *)
Lemma find_row_fmap {A : Type} (P : A -> Prop) `{!forall x, Decision (P x)}
    (f : A -> A) (l : list A) :
  (forall x, P (f x) <-> P x) ->
  snd <$> list_find P (f <$> l) = f <$> (snd <$> list_find P l).
Proof.
  intros Hf. induction l as [|a l IH]; csimpl; [reflexivity|].
  destruct (decide (P a)) as [Ha|Ha].
  - rewrite decide_True by (apply Hf; exact Ha). reflexivity.
  - rewrite decide_False by (rewrite Hf; exact Ha).
    destruct (list_find P (f <$> l)) as [[k y]|],
             (list_find P l) as [[k' y']|]; simpl in *; congruence.
Qed.

Lemma by_id_member (row : RefreshToken.t) (db : Db) :
  row ∈ refreshTokens db ->
  is_Some (prisma.refreshToken.by_id (RefreshToken.id row) db).
Proof.
  intros Hrow.
  apply (find_row_is_Some (fun r => RefreshToken.id r = RefreshToken.id row)
           _ row Hrow).
  reflexivity.
Qed.

Lemma user_by_id_Some (i : string) (db : Db) (u : User.t) :
  prisma.user.by_id i db = Some u -> u ∈ users db /\ User.id u = i.
Proof. apply (find_row_Some (fun u => User.id u = i)). Qed.

(** ** [login]: what it answers and what it leaves alone *)

Section LoginEffects.

Variable config : Config.
Variable tz : TimeZone.

(** An unknown email and a wrong secret on an active account get the same
    answer, [InvalidCredentials], and neither touches the store. *)
Theorem login_unknown_email_like_wrong_secret
    (email email' password password' : string) (rememberMe rememberMe' : bool)
    (now now' : Date) (db : Db) (u : User.t) :
  prisma.user.by_email (toLowerCase email) db = None ->
  prisma.user.by_email (toLowerCase email') db = Some u ->
  User.active u = true ->
  AuthService.comparePassword password' (User.passwordHash u) = false ->
  AuthService.login config tz email password rememberMe now db
    = (Throw InvalidCredentials, db) /\
  AuthService.login config tz email' password' rememberMe' now' db
    = AuthService.login config tz email password rememberMe now db.
Proof.
  intros Hnone Hsome Hact Hpw. unfold AuthService.login. run_async.
  rewrite Hnone, Hsome, Hact, Hpw. split; reflexivity.
Qed.

(** [login] never changes a user record and never removes or rewrites a
    Session row: a failed login leaves the store as it was, a successful
    one appends one row holding the refresh token it returns. *)
Theorem login_store_effect
    (email password : string) (rememberMe : bool) (now : Date) (db : Db) :
  users (snd (AuthService.login config tz email password rememberMe now db))
    = users db /\
  match fst (AuthService.login config tz email password rememberMe now db) with
  | Throw _ =>
      snd (AuthService.login config tz email password rememberMe now db) = db
  | Ok res =>
      exists row,
        snd (AuthService.login config tz email password rememberMe now db)
          = mkDb (users db) (refreshTokens db ++ [row]) (S (nextId db)) /\
        RefreshToken.token row = AuthService.lr_refreshToken res /\
        RefreshToken.userId row = AuthService.pu_id (AuthService.lr_user res)
  end.
Proof.
  unfold AuthService.login. run_async.
  destruct (prisma.user.by_email (toLowerCase email) db) as [u|];
    [|split; reflexivity].
  destruct (User.active u); simpl; [|split; reflexivity].
  destruct (AuthService.comparePassword password (User.passwordHash u));
    simpl; [|split; reflexivity].
  destruct (prisma.refreshToken.by_token _ db); simpl; [split; reflexivity|].
  split; [reflexivity|]. eexists. repeat split.
Qed.

End LoginEffects.

Lemma login_unknown_email_like_wrong_secret_witness :
  AuthService.login Sample.config UTC "nobody@example.com" "Client123!" false 5000
    Sample.db0 = (Throw InvalidCredentials, Sample.db0) /\
  AuthService.login Sample.config UTC "john@example.com" "wrong" true 6000
    Sample.db0
  = AuthService.login Sample.config UTC "nobody@example.com" "Client123!" false
      5000 Sample.db0.
Proof.
  apply (login_unknown_email_like_wrong_secret Sample.config UTC
           "nobody@example.com" "john@example.com" "Client123!" "wrong"
           false true 5000 6000 Sample.db0 Sample.john); reflexivity.
Defined.

(** What a successful [login] has found and done. *)
Lemma login_Ok_inv (config : Config) (tz : TimeZone)
    (email password : string) (rememberMe : bool) (now : Date) (db db' : Db)
    (res : AuthService.LoginResult) :
  AuthService.login config tz email password rememberMe now db
    = (Ok res, db') ->
  exists u,
    prisma.user.by_email (toLowerCase email) db = Some u /\
    User.active u = true /\
    AuthService.comparePassword password (User.passwordHash u) = true /\
    prisma.refreshToken.by_token
      (AuthService.generateRefreshToken config (payload_of u) now) db = None /\
    res = AuthService.mkLoginResult
            (AuthService.generateAccessToken config (payload_of u) now)
            (AuthService.generateRefreshToken config (payload_of u) now)
            (AuthService.mkPublicUser (User.id u) (User.email u)
               (User.name u) (User.role u)) /\
    db' = mkDb (users db)
            (refreshTokens db
             ++ [RefreshToken.mk (nextId db)
                   (AuthService.generateRefreshToken config (payload_of u) now)
                   (User.id u)
                   (if rememberMe then addDays tz now 30 else addDays tz now 7)])
            (S (nextId db)).
Proof.
  unfold AuthService.login. run_async.
  destruct (prisma.user.by_email (toLowerCase email) db) as [u|];
    [|discriminate].
  destruct (User.active u) eqn:Hact; simpl; [|discriminate].
  destruct (AuthService.comparePassword password (User.passwordHash u))
    eqn:Hpw; simpl; [|discriminate].
  fold (payload_of u).
  destruct (prisma.refreshToken.by_token _ db) eqn:Hfree; simpl;
    [discriminate|].
  intros [= <- <-]. exists u. destruct rememberMe; auto 10.
Qed.

(** ** [refreshAccessToken]: the paths the rotation does not take *)

Section RefreshPaths.

Variable config : Config.
Variable tz : TimeZone.

(** A presented token that the codec accepts but whose Session row has
    expired: the row is deleted on the spot, the call answers
    [RefreshTokenExpired], and (the store keeping one row per token) the
    token is unknown from then on. *)
Theorem refresh_expired_row_is_deleted
    (t : jwt.Token) (now : Date) (db : Db) (p : JwtPayload)
    (row : RefreshToken.t) (u : User.t) :
  jwt.verify t (refreshSecret config) now = inr p ->
  prisma.refreshToken.by_token t db = Some row ->
  prisma.user.by_id (RefreshToken.userId row) db = Some u ->
  RefreshToken.expiresAt row < now ->
  let db' :=
    mkDb (users db)
         (filter (fun x => RefreshToken.id x <> RefreshToken.id row)
                 (refreshTokens db))
         (nextId db) in
  AuthService.refreshAccessToken config t now db
    = (Throw RefreshTokenExpired, db') /\
  (unique_tokens db ->
   prisma.refreshToken.by_token t db' = None /\
   AuthService.refreshAccessToken config t now db'
     = (Throw RefreshTokenNotFound, db')).
Proof.
  intros Hverify Hrow Hu Hexp db'. split.
  - unfold AuthService.refreshAccessToken. rewrite Hverify. run_async.
    rewrite Hrow, Hu. simpl.
    rewrite bool_decide_eq_true_2 by exact Hexp.
    destruct (by_id_member row db) as [r Hr];
      [apply by_token_Some in Hrow; tauto|].
    rewrite Hr. reflexivity.
  - intros Hnd.
    assert (Hgone : prisma.refreshToken.by_token t db' = None).
    { apply by_token_None. subst db'. simpl.
      eapply by_token_delete_found; eauto. }
    split; [exact Hgone|].
    rewrite (refresh_without_row config t now db' Hgone), Hverify.
    reflexivity.
Qed.

(** A deactivated principal cannot refresh: the call answers
    [AccountDisabled] and the Session row stays where it is. *)
Theorem refresh_deactivated_keeps_row
    (t : jwt.Token) (now : Date) (db : Db) (p : JwtPayload)
    (row : RefreshToken.t) (u : User.t) :
  jwt.verify t (refreshSecret config) now = inr p ->
  prisma.refreshToken.by_token t db = Some row ->
  prisma.user.by_id (RefreshToken.userId row) db = Some u ->
  ~ RefreshToken.expiresAt row < now ->
  User.active u = false ->
  AuthService.refreshAccessToken config t now db = (Throw AccountDisabled, db).
Proof.
  intros Hverify Hrow Hu Hexp Hact.
  unfold AuthService.refreshAccessToken. rewrite Hverify. run_async.
  rewrite Hrow, Hu. simpl.
  rewrite bool_decide_eq_false_2 by exact Hexp. rewrite Hact. reflexivity.
Qed.

(** A successful refresh mints from the store, not from the presented
    token: both new tokens carry the id, email and role the principal has
    in the store now.  The Session that replaces the old one belongs to
    the same principal and expires 7 days from now, whatever the old row's
    expiry was; no user record changes. *)
Theorem refresh_mints_from_store
    (t : jwt.Token) (now : Date) (db db' : Db) (r : AuthService.RefreshResult) :
  AuthService.refreshAccessToken config t now db = (Ok r, db') ->
  exists (row newrow : RefreshToken.t) (u : User.t) (ja jr : jwt.Jws),
    prisma.refreshToken.by_token t db = Some row /\
    prisma.user.by_id (RefreshToken.userId row) db = Some u /\
    AuthService.rr_accessToken r = jwt.Signed ja /\
    AuthService.rr_refreshToken r = jwt.Signed jr /\
    jwt.claims ja = payload_of u /\
    jwt.claims jr = payload_of u /\
    newrow ∈ refreshTokens db' /\
    RefreshToken.token newrow = AuthService.rr_refreshToken r /\
    RefreshToken.userId newrow = RefreshToken.userId row /\
    RefreshToken.expiresAt newrow = now + 604800000 /\
    users db' = users db.
Proof.
  intros Hok.
  destruct (refresh_Ok_inv _ _ _ _ _ _ Hok)
    as (row & u & Hrow & Hu & _ & _ & -> & ->).
  exists row. eexists. exists u. eexists. eexists.
  split; [exact Hrow|]. split; [exact Hu|].
  split; [reflexivity|]. split; [reflexivity|].
  split; [reflexivity|]. split; [reflexivity|].
  split; [simpl; apply elem_of_app; right; apply list_elem_of_singleton;
          reflexivity|].
  split; [reflexivity|]. split; [|split; reflexivity].
  simpl. apply user_by_id_Some in Hu. tauto.
Qed.

(** [rememberMe] does not lengthen the life of the refresh token: the
    Session row of such a login runs for 30 local calendar days, but the
    token itself carries the configured expiry, and once that has passed
    every refresh with it is answered [InvalidRefreshToken], in any
    store. *)
Theorem rememberMe_does_not_extend_refresh
    (email password : string) (now later : Date) (db db1 db2 : Db)
    (res : AuthService.LoginResult) :
  AuthService.login config tz email password true now db = (Ok res, db1) ->
  jwt.clockTimestamp now + refreshExpiry config <= jwt.clockTimestamp later ->
  (exists row, row ∈ refreshTokens db1 /\
     RefreshToken.token row = AuthService.lr_refreshToken res /\
     RefreshToken.expiresAt row = addDays tz now 30) /\
  AuthService.refreshAccessToken config (AuthService.lr_refreshToken res)
    later db2 = (Throw InvalidRefreshToken, db2).
Proof.
  intros Hlogin Hlate.
  destruct (login_Ok_inv _ _ _ _ _ _ _ _ _ Hlogin)
    as (u & _ & _ & _ & _ & -> & ->).
  split.
  - eexists. split; [simpl; apply elem_of_app; right;
                     apply list_elem_of_singleton; reflexivity|].
    split; reflexivity.
  - simpl. unfold AuthService.refreshAccessToken,
      AuthService.generateRefreshToken, jwt.sign, jwt.verify. simpl.
    rewrite bool_decide_eq_true_2 by reflexivity.
    rewrite bool_decide_eq_true_2 by exact Hlate. reflexivity.
Qed.

(** The two token classes do not mix when the two keys differ: a refresh
    token presented as bearer token is answered [InvalidToken] by the
    guard, and an access token presented to [refreshAccessToken] is
    answered [InvalidRefreshToken]. *)
Theorem token_classes_do_not_mix
    (p : JwtPayload) (now later : Date) (db : Db) (req : Request) :
  accessSecret config <> refreshSecret config ->
  (authorization req
     = Some (Bearer (AuthService.generateRefreshToken config p now)) ->
   middleware.authenticate config req later db = next_error InvalidToken) /\
  AuthService.refreshAccessToken config
    (AuthService.generateAccessToken config p now) later db
  = (Throw InvalidRefreshToken, db).
Proof.
  intros Hkeys. split.
  - intros Hauth. unfold middleware.authenticate, middleware.authenticate_try.
    rewrite Hauth. simpl.
    rewrite bool_decide_eq_false_2 by (intros Heq; apply Hkeys; symmetry;
                                       exact Heq).
    reflexivity.
  - unfold AuthService.refreshAccessToken, AuthService.generateAccessToken,
      jwt.sign, jwt.verify. simpl.
    rewrite bool_decide_eq_false_2 by exact Hkeys. reflexivity.
Qed.

End RefreshPaths.

Lemma refresh_expired_row_is_deleted_witness :
  AuthService.refreshAccessToken SampleLongRefresh.config SampleLongRefresh.R1
    SampleLongRefresh.day8 SampleLongRefresh.db1
  = (Throw RefreshTokenExpired, mkDb (users Sample.db0) [] 1).
Proof.
  apply (proj1 (refresh_expired_row_is_deleted SampleLongRefresh.config
                  SampleLongRefresh.R1 SampleLongRefresh.day8
                  SampleLongRefresh.db1 Sample.john_payload
                  SampleLongRefresh.row1 Sample.john
                  eq_refl eq_refl eq_refl eq_refl)).
Defined.

Lemma refresh_deactivated_keeps_row_witness :
  AuthService.refreshAccessToken Sample.config Sample.R1 6000
    SampleDeactivated.db
  = (Throw AccountDisabled, SampleDeactivated.db).
Proof.
  apply (refresh_deactivated_keeps_row Sample.config Sample.R1 6000
           SampleDeactivated.db Sample.john_payload SampleRows.row1
           SampleDeactivated.john_off eq_refl eq_refl eq_refl).
  - vm_compute. discriminate.
  - reflexivity.
Defined.

(** John's token says [CLIENT]; the store has made him [ADMIN]: the
    tokens a refresh hands out say [ADMIN]. *)
Lemma refresh_mints_from_store_witness :
  exists r db' jr,
    AuthService.refreshAccessToken Sample.config Sample.R1 6000
      SampleDeactivated.db_promoted = (Ok r, db') /\
    AuthService.rr_refreshToken r = jwt.Signed jr /\
    jwt.claims jr = mkJwtPayload "u1" "john@fitportal.com" ADMIN.
Proof.
  eexists _, _.
  edestruct (refresh_mints_from_store Sample.config Sample.R1 6000
               SampleDeactivated.db_promoted)
    as (row & newrow & u & ja & jr & Hrow & Hu & _ & Hjr & _ & Hclaims & _).
  { vm_compute. reflexivity. }
  exists jr. split; [vm_compute; reflexivity|]. split; [exact Hjr|].
  rewrite Hclaims. vm_compute in Hrow. injection Hrow as <-.
  vm_compute in Hu. injection Hu as <-. reflexivity.
Defined.

Lemma rememberMe_does_not_extend_refresh_witness :
  exists res db1,
    AuthService.login Sample.config UTC "john@example.com" "Client123!" true 5000
      Sample.db0 = (Ok res, db1) /\
    AuthService.refreshAccessToken Sample.config
      (AuthService.lr_refreshToken res) (5000 + 8 * msPerDay) db1
    = (Throw InvalidRefreshToken, db1).
Proof.
  eexists _, _. split; [vm_compute; reflexivity|].
  eapply (proj2 (rememberMe_does_not_extend_refresh Sample.config UTC
                   "john@example.com" "Client123!" 5000 (5000 + 8 * msPerDay)
                   Sample.db0 _ _ _ eq_refl _)).
  Unshelve. vm_compute. discriminate.
Defined.

Lemma token_classes_do_not_mix_witness :
  middleware.authenticate Sample.config (SampleRequests.bearer Sample.R1)
    6000 Sample.db1 = next_error InvalidToken /\
  AuthService.refreshAccessToken Sample.config SampleRequests.A1 6000
    Sample.db1 = (Throw InvalidRefreshToken, Sample.db1).
Proof.
  assert (Hkeys : accessSecret Sample.config <> refreshSecret Sample.config)
    by discriminate.
  split.
  - apply (proj1 (token_classes_do_not_mix Sample.config Sample.john_payload
                    5000 6000 Sample.db1 (SampleRequests.bearer Sample.R1)
                    Hkeys)).
    reflexivity.
  - apply (proj2 (token_classes_do_not_mix Sample.config Sample.john_payload
                    5000 6000 Sample.db1 SampleRequests.no_header Hkeys)).
Defined.

(** ** [logout] and [logoutAll] *)

Lemma by_token_filter_kept (Q : RefreshToken.t -> Prop)
    `{!forall x, Decision (Q x)} (t : jwt.Token) (db : Db)
    (row : RefreshToken.t) (us : list User.t) (n : nat) :
  prisma.refreshToken.by_token t db = Some row -> Q row ->
  prisma.refreshToken.by_token t (mkDb us (filter Q (refreshTokens db)) n)
  = Some row.
Proof.
  intros Hrow HQ.
  apply (find_row_filter_Some (fun r => RefreshToken.token r = t) Q
           (refreshTokens db) row Hrow HQ).
Qed.

Lemma by_token_filter_absent (Q : RefreshToken.t -> Prop)
    `{!forall x, Decision (Q x)} (t : jwt.Token) (db : Db)
    (us : list User.t) (n : nat) :
  prisma.refreshToken.by_token t db = None ->
  prisma.refreshToken.by_token t (mkDb us (filter Q (refreshTokens db)) n)
  = None.
Proof.
  intros Hnone.
  apply (find_row_filter_None (fun r => RefreshToken.token r = t) Q
           (refreshTokens db) Hnone).
Qed.

(** [logout] always succeeds, removes the row of the presented token and
    nothing else, and is idempotent; on a token without a row it changes
    nothing. *)
Theorem logout_removes_only_that_token (t : jwt.Token) (db : Db) :
  fst (AuthService.logout t db) = Ok tt /\
  prisma.refreshToken.by_token t (snd (AuthService.logout t db)) = None /\
  (forall t', t' <> t ->
     prisma.refreshToken.by_token t' (snd (AuthService.logout t db))
     = prisma.refreshToken.by_token t' db) /\
  users (snd (AuthService.logout t db)) = users db /\
  AuthService.logout t (snd (AuthService.logout t db))
    = (Ok tt, snd (AuthService.logout t db)) /\
  (prisma.refreshToken.by_token t db = None ->
   AuthService.logout t db = (Ok tt, db)).
Proof.
  split; [reflexivity|]. split; [apply logout_removes_row|].
  split; [|split; [reflexivity|split]].
  - intros t' Hne. unfold AuthService.logout,
      prisma.refreshToken.deleteMany_token. simpl.
    destruct (prisma.refreshToken.by_token t' db) as [row|] eqn:Hrow.
    + apply by_token_filter_kept; [exact Hrow|].
      apply by_token_Some in Hrow as [_ Htok]. congruence.
    + apply by_token_filter_absent. exact Hrow.
  - unfold AuthService.logout, prisma.refreshToken.deleteMany_token. simpl.
    f_equal. f_equal. apply filter_all.
    intros r [Hne _]%list_elem_of_filter. exact Hne.
  - intros Hnone. unfold AuthService.logout,
      prisma.refreshToken.deleteMany_token.
    rewrite by_token_None in Hnone.
    rewrite (filter_all _ _ Hnone). destruct db; reflexivity.
Qed.

Section LogoutAll.

Variable config : Config.

(** Once no row of a principal is left, [refreshAccessToken] fails for
    every token whose row was the principal's. *)
Lemma refresh_after_deleteMany_userId (uid : string) (t : jwt.Token)
    (db : Db) (us : list User.t) (n : nat) :
  unique_tokens db ->
  (forall row, prisma.refreshToken.by_token t db = Some row ->
               RefreshToken.userId row = uid) ->
  prisma.refreshToken.by_token t
    (mkDb us (filter (fun r => RefreshToken.userId r <> uid)
                     (refreshTokens db)) n) = None.
Proof.
  intros Hnd Hown. apply by_token_None. simpl.
  intros r [Hne Hr]%list_elem_of_filter Heq. apply Hne.
  destruct (find_row_is_Some (fun x => RefreshToken.token x = t)
              (refreshTokens db) r Hr Heq) as [row Hfound].
  rewrite <- (Hown row Hfound). f_equal.
  apply by_token_Some in Hfound as [Hrow Htok].
  apply (NoDup_fmap_eq RefreshToken.token (refreshTokens db));
    [exact Hnd | exact Hr | exact Hrow | congruence].
Qed.

(** [logoutAll] always succeeds and removes the Sessions of that
    principal and of nobody else: no row of the principal is left, every
    token of another principal is found as before, no user record
    changes, and every refresh with a token of the principal fails from
    then on. *)
Theorem logoutAll_removes_only_that_principal (uid : string) (db : Db) :
  fst (AuthService.logoutAll uid db) = Ok tt /\
  (forall r, r ∈ refreshTokens (snd (AuthService.logoutAll uid db)) ->
             RefreshToken.userId r <> uid) /\
  (forall t row,
     prisma.refreshToken.by_token t db = Some row ->
     RefreshToken.userId row <> uid ->
     prisma.refreshToken.by_token t (snd (AuthService.logoutAll uid db))
     = Some row) /\
  users (snd (AuthService.logoutAll uid db)) = users db /\
  (forall (t : jwt.Token) (later : Date),
     unique_tokens db ->
     (forall row, prisma.refreshToken.by_token t db = Some row ->
                  RefreshToken.userId row = uid) ->
     AuthService.refreshAccessToken config t later
       (snd (AuthService.logoutAll uid db))
     = (Throw (match jwt.verify t (refreshSecret config) later with
               | inr _ => RefreshTokenNotFound
               | inl _ => InvalidRefreshToken
               end), snd (AuthService.logoutAll uid db))).
Proof.
  split; [reflexivity|]. split; [|split; [|split; [reflexivity|]]].
  - simpl. intros r [Hne _]%list_elem_of_filter. exact Hne.
  - intros t row Hrow Hother.
    apply (by_token_filter_kept (fun r => RefreshToken.userId r <> uid));
      assumption.
  - intros t later Hnd Hown. apply refresh_without_row.
    apply refresh_after_deleteMany_userId; assumption.
Qed.

End LogoutAll.

Lemma logoutAll_removes_only_that_principal_witness :
  AuthService.refreshAccessToken Sample.config Sample.R1 6000
    (snd (AuthService.logoutAll "u1" Sample.db1))
  = (Throw RefreshTokenNotFound, snd (AuthService.logoutAll "u1" Sample.db1)) /\
  prisma.refreshToken.by_token Sample.R1
    (snd (AuthService.logoutAll "u2" Sample.db1)) = Some SampleRows.row1.
Proof.
  split.
  - refine (proj2 (proj2 (proj2 (proj2
              (logoutAll_removes_only_that_principal Sample.config "u1"
                 Sample.db1)))) Sample.R1 6000 sample_db1_unique _).
    intros row [= <-]. reflexivity.
  - apply (proj1 (proj2 (proj2
              (logoutAll_removes_only_that_principal Sample.config "u2"
                 Sample.db1))) Sample.R1 SampleRows.row1 eq_refl).
    discriminate.
Defined.

Lemma logout_removes_only_that_token_witness :
  prisma.refreshToken.by_token Sample.R1
    (snd (AuthService.logout SampleTokens.forged Sample.db1))
  = Some SampleRows.row1 /\
  AuthService.logout SampleTokens.forged Sample.db1 = (Ok tt, Sample.db1).
Proof.
  split.
  - rewrite (proj1 (proj2 (proj2 (logout_removes_only_that_token
               SampleTokens.forged Sample.db1))) Sample.R1).
    + reflexivity.
    + discriminate.
  - apply (proj2 (proj2 (proj2 (proj2 (proj2 (logout_removes_only_that_token
             SampleTokens.forged Sample.db1)))))).
    reflexivity.
Defined.

(** ** [changePassword] and [adminResetPassword] *)

(** The store both operations leave when they succeed. *)
Local Abbreviation store_after_reset uid h db :=
  (mkDb ((fun u => if decide (User.id u = uid)
                   then prisma.user.set_passwordHash h u else u) <$> users db)
        (filter (fun r => RefreshToken.userId r <> uid) (refreshTokens db))
        (nextId db)).

Lemma by_id_after_reset_other (uid i : string) (h : bcrypt.Hashed) (db : Db) :
  i <> uid ->
  prisma.user.by_id i (store_after_reset uid h db) = prisma.user.by_id i db.
Proof.
  intros Hne. unfold prisma.user.by_id. simpl.
  rewrite (find_row_fmap (fun u => User.id u = i)).
  - destruct (snd <$> list_find (fun u => User.id u = i) (users db))
      as [x|] eqn:Hx; [|reflexivity].
    apply (find_row_Some (fun u => User.id u = i)) in Hx as [_ Hid].
    simpl. rewrite decide_False by congruence. reflexivity.
  - intros x. destruct (decide (User.id x = uid)); reflexivity.
Qed.

Lemma by_email_after_reset (uid e : string) (h : bcrypt.Hashed) (db : Db) :
  prisma.user.by_email e (store_after_reset uid h db)
  = (fun u => if decide (User.id u = uid)
              then prisma.user.set_passwordHash h u else u)
      <$> prisma.user.by_email e db.
Proof.
  unfold prisma.user.by_email. simpl.
  apply (find_row_fmap (fun u => User.email u = e)).
  intros x. destruct (decide (User.id x = uid)); reflexivity.
Qed.

Lemma changePassword_Ok_inv (uid cur new salt : string) (db db' : Db) :
  AuthService.changePassword uid cur new salt db = (Ok tt, db') ->
  exists u,
    prisma.user.by_id uid db = Some u /\
    AuthService.comparePassword cur (User.passwordHash u) = true /\
    db' = store_after_reset uid (AuthService.hashPassword salt new) db.
Proof.
  unfold AuthService.changePassword, AuthService.logoutAll. run_async.
  destruct (prisma.user.by_id uid db) as [u|] eqn:Hu; [|discriminate].
  destruct (AuthService.comparePassword cur (User.passwordHash u)) eqn:Hpw;
    simpl; [|discriminate].
  rewrite Hu. simpl. intros [= <-]. exists u. auto.
Qed.

(** [adminResetPassword] asks for no current secret.  For a stored
    principal it succeeds, stores the hash of the new secret (which the
    new secret verifies against), deletes the principal's Sessions, and
    leaves every other user record and every other principal's Sessions
    as they were. *)
Theorem adminResetPassword_resets_only_the_target
    (clientId newPassword salt : string) (db : Db) (u : User.t) :
  prisma.user.by_id clientId db = Some u ->
  exists db',
    AuthService.adminResetPassword clientId newPassword salt db = (Ok tt, db') /\
    prisma.user.by_id clientId db'
      = Some (prisma.user.set_passwordHash
                (AuthService.hashPassword salt newPassword) u) /\
    AuthService.comparePassword newPassword
      (AuthService.hashPassword salt newPassword) = true /\
    (forall r, r ∈ refreshTokens db' -> RefreshToken.userId r <> clientId) /\
    (forall i, i <> clientId ->
       prisma.user.by_id i db' = prisma.user.by_id i db) /\
    (forall t row,
       prisma.refreshToken.by_token t db = Some row ->
       RefreshToken.userId row <> clientId ->
       prisma.refreshToken.by_token t db' = Some row).
Proof.
  intros Hu.
  exists (store_after_reset clientId
            (AuthService.hashPassword salt newPassword) db).
  split.
  { unfold AuthService.adminResetPassword, AuthService.logoutAll. run_async.
    rewrite Hu. simpl. rewrite Hu. reflexivity. }
  split; [|split; [|split; [|split]]].
  - unfold prisma.user.by_id in *. simpl.
    apply by_id_update_passwordHash. exact Hu.
  - unfold AuthService.comparePassword, AuthService.hashPassword,
      bcrypt.compare, bcrypt.hash. simpl.
    apply bool_decide_eq_true_2. reflexivity.
  - simpl. intros r [Hne _]%list_elem_of_filter. exact Hne.
  - intros i Hne. apply by_id_after_reset_other. exact Hne.
  - intros t row Hrow Hother.
    apply (by_token_filter_kept (fun r => RefreshToken.userId r <> clientId));
      assumption.
Qed.

(** On an id that is not in the store both operations fail with
    [NotFoundError('User')] and change nothing, whatever secrets are
    given. *)
Theorem password_operations_unknown_principal
    (uid currentPassword newPassword salt : string) (db : Db) :
  prisma.user.by_id uid db = None ->
  AuthService.changePassword uid currentPassword newPassword salt db
    = (Throw (AppErr (NotFoundError "User")), db) /\
  AuthService.adminResetPassword uid newPassword salt db
    = (Throw (AppErr (NotFoundError "User")), db).
Proof.
  intros Hnone.
  unfold AuthService.changePassword, AuthService.adminResetPassword.
  run_async. rewrite Hnone. split; reflexivity.
Qed.

Section ChangeThenLogin.

Variable config : Config.
Variable tz : TimeZone.

(** After a successful [changePassword] the principal's old secret no
    longer logs in and the new one does: a secret that differs from the
    new one within the first 72 bytes gets [InvalidCredentials], and the
    new secret logs in whenever the refresh token minted for it is not
    already stored. *)
Theorem changePassword_then_login
    (uid cur new salt email : string) (db db' : Db) (u : User.t) :
  AuthService.changePassword uid cur new salt db = (Ok tt, db') ->
  prisma.user.by_email (toLowerCase email) db = Some u ->
  User.id u = uid ->
  User.active u = true ->
  (forall (old : string) (rememberMe : bool) (now : Date),
     bcrypt.truncate old <> bcrypt.truncate new ->
     AuthService.login config tz email old rememberMe now db'
     = (Throw InvalidCredentials, db')) /\
  (forall (rememberMe : bool) (now : Date),
     prisma.refreshToken.by_token
       (AuthService.generateRefreshToken config (payload_of u) now) db = None ->
     exists res db'',
       AuthService.login config tz email new rememberMe now db' = (Ok res, db'')).
Proof.
  intros Hok Hu Hid Hact.
  destruct (changePassword_Ok_inv _ _ _ _ _ _ Hok) as (u0 & _ & _ & ->).
  assert (Hfound :
    prisma.user.by_email (toLowerCase email)
      (store_after_reset uid (AuthService.hashPassword salt new) db)
    = Some (prisma.user.set_passwordHash
              (AuthService.hashPassword salt new) u)).
  { rewrite by_email_after_reset, Hu. simpl.
    rewrite decide_True by exact Hid. reflexivity. }
  split.
  - intros old rememberMe now Hdiff.
    unfold AuthService.login. run_async. rewrite Hfound. simpl.
    rewrite Hact. simpl.
    unfold AuthService.comparePassword, bcrypt.compare. simpl.
    rewrite bool_decide_eq_false_2 by exact Hdiff. reflexivity.
  - intros rememberMe now Hfree.
    unfold AuthService.login. run_async. rewrite Hfound. simpl.
    rewrite Hact. simpl.
    unfold AuthService.comparePassword, bcrypt.compare. simpl.
    rewrite bool_decide_eq_true_2 by reflexivity. simpl.
    fold (payload_of u).
    rewrite (by_token_filter_absent
               (fun r => RefreshToken.userId r <> uid) _ db _ _ Hfree).
    simpl. eexists _, _. reflexivity.
Qed.

(** A successful [changePassword] changes the target's hash and nothing
    else about any user, and touches no other principal's Sessions. *)
Theorem changePassword_touches_only_the_target
    (uid cur new salt : string) (db db' : Db) :
  AuthService.changePassword uid cur new salt db = (Ok tt, db') ->
  (exists u, prisma.user.by_id uid db = Some u /\
             prisma.user.by_id uid db'
             = Some (User.mk (User.id u) (User.email u) (User.name u)
                       (AuthService.hashPassword salt new) (User.role u)
                       (User.active u))) /\
  (forall i, i <> uid -> prisma.user.by_id i db' = prisma.user.by_id i db) /\
  (forall t row,
     prisma.refreshToken.by_token t db = Some row ->
     RefreshToken.userId row <> uid ->
     prisma.refreshToken.by_token t db' = Some row) /\
  nextId db' = nextId db.
Proof.
  intros Hok.
  destruct (changePassword_Ok_inv _ _ _ _ _ _ Hok) as (u & Hu & _ & ->).
  split; [|split; [|split; [|reflexivity]]].
  - exists u. split; [exact Hu|]. unfold prisma.user.by_id in *. simpl.
    apply by_id_update_passwordHash. exact Hu.
  - intros i Hne. apply by_id_after_reset_other. exact Hne.
  - intros t row Hrow Hother.
    apply (by_token_filter_kept (fun r => RefreshToken.userId r <> uid));
      assumption.
Qed.

End ChangeThenLogin.

Lemma adminResetPassword_resets_only_the_target_witness :
  exists db',
    AuthService.adminResetPassword "u2" "Reset456!" "salt9" Sample.db1
      = (Ok tt, db') /\
    User.passwordHash <$> prisma.user.by_id "u2" db'
      = Some (AuthService.hashPassword "salt9" "Reset456!") /\
    prisma.user.by_id "u1" db' = Some Sample.john /\
    prisma.refreshToken.by_token Sample.R1 db' = Some SampleRows.row1.
Proof.
  destruct (adminResetPassword_resets_only_the_target "u2" "Reset456!" "salt9"
              Sample.db1 Sample.sarah eq_refl)
    as (db' & Hok & Hhash & _ & _ & Hothers & Hrows).
  exists db'. split; [exact Hok|]. split; [rewrite Hhash; reflexivity|].
  split.
  - rewrite (Hothers "u1"); [reflexivity | discriminate].
  - apply (Hrows Sample.R1 SampleRows.row1); [reflexivity | discriminate].
Defined.

Lemma password_operations_unknown_principal_witness :
  AuthService.changePassword "u9" "Client123!" "Client456!" "salt9" Sample.db1
    = (Throw (AppErr (NotFoundError "User")), Sample.db1) /\
  AuthService.adminResetPassword "u9" "Client456!" "salt9" Sample.db1
    = (Throw (AppErr (NotFoundError "User")), Sample.db1).
Proof.
  apply (password_operations_unknown_principal "u9" "Client123!" "Client456!"
           "salt9" Sample.db1).
  reflexivity.
Defined.

Lemma changePassword_then_login_witness :
  exists db',
    AuthService.changePassword "u1" "Client123!" "Client456!" "salt9"
      Sample.db1 = (Ok tt, db') /\
    AuthService.login Sample.config UTC "John@Example.com" "Client123!" false
      9000 db' = (Throw InvalidCredentials, db') /\
    exists res db'',
      AuthService.login Sample.config UTC "John@Example.com" "Client456!" false
        9000 db' = (Ok res, db'').
Proof.
  exists (snd (AuthService.changePassword "u1" "Client123!" "Client456!"
                 "salt9" Sample.db1)).
  split; [vm_compute; reflexivity|].
  edestruct (changePassword_then_login Sample.config UTC "u1" "Client123!"
               "Client456!" "salt9" "John@Example.com" Sample.db1
               (snd (AuthService.changePassword "u1" "Client123!"
                       "Client456!" "salt9" Sample.db1))
               Sample.john) as [Hold Hnew].
  - vm_compute. reflexivity.
  - reflexivity.
  - reflexivity.
  - reflexivity.
  - split.
    + apply (Hold "Client123!" false 9000). vm_compute. discriminate.
    + apply (Hnew false 9000). vm_compute. reflexivity.
Defined.

Lemma changePassword_touches_only_the_target_witness :
  exists db',
    AuthService.changePassword "u1" "Client123!" "Client456!" "salt9"
      Sample.db1 = (Ok tt, db') /\
    prisma.user.by_id "u0" db' = Some Sample.admin /\
    prisma.user.by_id "u2" db' = Some Sample.sarah.
Proof.
  exists (snd (AuthService.changePassword "u1" "Client123!" "Client456!"
                 "salt9" Sample.db1)).
  split; [vm_compute; reflexivity|].
  edestruct (changePassword_touches_only_the_target "u1" "Client123!"
               "Client456!" "salt9" Sample.db1
               (snd (AuthService.changePassword "u1" "Client123!"
                       "Client456!" "salt9" Sample.db1)))
    as (_ & Hothers & _).
  - vm_compute. reflexivity.
  - split; (rewrite Hothers; [reflexivity | discriminate]).
Defined.

(** ** A login's tokens at work *)

Section LoginThenUse.

Variable config : Config.
Variable tz : TimeZone.

(** The access token a login returns passes [authenticate] at every
    instant before its expiry, in every later store in which the principal
    still exists and is active; the claims attached are those of the
    login. *)
Theorem login_then_authenticate
    (email password : string) (rememberMe : bool) (now later : Date)
    (db db1 db2 : Db) (res : AuthService.LoginResult) (req : Request)
    (u2 : User.t) :
  AuthService.login config tz email password rememberMe now db = (Ok res, db1) ->
  authorization req = Some (Bearer (AuthService.lr_accessToken res)) ->
  jwt.clockTimestamp later < jwt.clockTimestamp now + accessExpiry config ->
  prisma.user.by_id (AuthService.pu_id (AuthService.lr_user res)) db2
    = Some u2 ->
  User.active u2 = true ->
  middleware.authenticate config req later db2
  = next (middleware.set_user req
            (mkJwtPayload (AuthService.pu_id (AuthService.lr_user res))
                          (AuthService.pu_email (AuthService.lr_user res))
                          (AuthService.pu_role (AuthService.lr_user res)))).
Proof.
  intros Hlogin Hauth Hfresh Hu2 Hact.
  destruct (login_Ok_inv _ _ _ _ _ _ _ _ _ Hlogin)
    as (u & _ & _ & _ & _ & -> & _).
  simpl in *.
  unfold middleware.authenticate, middleware.authenticate_try.
  rewrite Hauth. simpl.
  rewrite bool_decide_eq_true_2 by reflexivity.
  rewrite bool_decide_eq_false_2 by lia.
  run_async. simpl. rewrite Hu2, Hact. reflexivity.
Qed.

(** The refresh token a login returns can be exchanged once the clock
    second has moved on, as long as the token has not expired, the moment
    is not past the expiry [login] gave the row (30 or 7 local calendar
    days after the login), the principal is still the active user stored
    under its id, and the token to be minted is not stored yet: the
    exchange succeeds, returns a different refresh token, and the login's
    token is unknown afterwards. *)
Theorem login_then_refresh
    (email password : string) (rememberMe : bool) (now later : Date)
    (db db1 : Db) (res : AuthService.LoginResult) (u : User.t) :
  unique_tokens db ->
  AuthService.login config tz email password rememberMe now db = (Ok res, db1) ->
  prisma.user.by_email (toLowerCase email) db = Some u ->
  prisma.user.by_id (User.id u) db = Some u ->
  jwt.clockTimestamp now < jwt.clockTimestamp later ->
  jwt.clockTimestamp later < jwt.clockTimestamp now + refreshExpiry config ->
  later <= (if rememberMe then addDays tz now 30 else addDays tz now 7) ->
  prisma.refreshToken.by_token
    (AuthService.generateRefreshToken config (payload_of u) later) db = None ->
  exists r db2,
    AuthService.refreshAccessToken config (AuthService.lr_refreshToken res)
      later db1 = (Ok r, db2) /\
    AuthService.rr_refreshToken r <> AuthService.lr_refreshToken res /\
    prisma.refreshToken.by_token (AuthService.lr_refreshToken res) db2 = None /\
    is_Some (prisma.refreshToken.by_token (AuthService.rr_refreshToken r) db2).
Proof.
  intros Hnd Hlogin Hu Hid Hnext Hlive Hrow Hfree.
  destruct (login_Ok_inv _ _ _ _ _ _ _ _ _ Hlogin)
    as (u' & Hu' & Hact & _ & Hminted & -> & ->).
  assert (u' = u) as -> by congruence.
  set (R := AuthService.generateRefreshToken config (payload_of u) now) in *.
  set (row := RefreshToken.mk (nextId db) R (User.id u)
                (if rememberMe then addDays tz now 30 else addDays tz now 7)).
  set (db1 := mkDb (users db) (refreshTokens db ++ [row]) (S (nextId db))).
  assert (Hfound : prisma.refreshToken.by_token R db1 = Some row).
  { unfold prisma.refreshToken.by_token in *. simpl.
    destruct (list_find (fun r => RefreshToken.token r = R) (refreshTokens db))
      as [[k x]|] eqn:Hfind; [discriminate|].
    rewrite (list_find_app_r _ _ _ Hfind). simpl.
    rewrite decide_True by reflexivity. reflexivity. }
  assert (Hdiff : AuthService.generateRefreshToken config (payload_of u) later
                  <> R).
  { apply minted_in_later_second_fresh. simpl. exact Hnext. }
  assert (Hnd1 : unique_tokens db1).
  { pose proof (create_unique R (User.id u)
                  (if rememberMe then addDays tz now 30 else addDays tz now 7)
                  db Hnd) as Hc.
    unfold prisma.refreshToken.create in Hc. rewrite Hminted in Hc.
    exact Hc. }
  assert (Hok : AuthService.refreshAccessToken config R later db1
    = (Ok (AuthService.mkRefreshResult
             (AuthService.generateAccessToken config (payload_of u) later)
             (AuthService.generateRefreshToken config (payload_of u) later)),
       mkDb (users db)
         (filter (fun x => RefreshToken.id x <> RefreshToken.id row)
                 (refreshTokens db1)
          ++ [RefreshToken.mk (nextId db1)
                (AuthService.generateRefreshToken config (payload_of u) later)
                (User.id u) (later + 7 * 24 * 60 * 60 * 1000)])
         (S (nextId db1)))).
  { unfold AuthService.refreshAccessToken.
    assert (Hverify : jwt.verify R (refreshSecret config) later
                      = inr (payload_of u)).
    { unfold R, AuthService.generateRefreshToken, jwt.sign, jwt.verify. simpl.
      rewrite bool_decide_eq_true_2 by reflexivity.
      rewrite bool_decide_eq_false_2 by lia. reflexivity. }
    rewrite Hverify. run_async. rewrite Hfound. simpl.
    change (prisma.user.by_id (User.id u) db1)
      with (prisma.user.by_id (User.id u) db).
    rewrite Hid. simpl.
    rewrite bool_decide_eq_false_2
      by (unfold row; simpl; destruct rememberMe; lia).
    rewrite Hact. simpl.
    destruct (by_id_member row db1) as [x Hx].
    { simpl. apply elem_of_app. right. apply list_elem_of_singleton.
      reflexivity. }
    simpl in Hx. rewrite Hx. simpl. fold (payload_of u).
    match goal with
    | |- context [prisma.refreshToken.by_token ?tok ?d] =>
        assert (Hnone : prisma.refreshToken.by_token tok d = None)
    end.
    { apply by_token_None. simpl.
      intros r [_ [Hr|Hr]%elem_of_app]%list_elem_of_filter.
      - rewrite by_token_None in Hfree. apply Hfree. exact Hr.
      - apply list_elem_of_singleton in Hr as ->. simpl.
        intros Heq. apply Hdiff. symmetry. exact Heq. }
    rewrite Hnone. reflexivity. }
  eexists _, _. split; [exact Hok|].
  destruct (proj1 (refresh_rotates_when_minted_token_differs config R)
              later db1 _ _ Hnd1 Hok Hdiff) as (Hgone & Hnew & _).
  simpl. auto.
Qed.

End LoginThenUse.

Lemma login_then_authenticate_witness :
  middleware.authenticate Sample.config
    (SampleRequests.bearer SampleRequests.A1) 904999 Sample.db1
  = next (middleware.set_user (SampleRequests.bearer SampleRequests.A1)
            Sample.john_payload).
Proof.
  refine (login_then_authenticate Sample.config UTC "John@Example.com"
            "Client123!" false 5000 904999 Sample.db0 Sample.db1 Sample.db1
            _ (SampleRequests.bearer SampleRequests.A1) Sample.john
            eq_refl eq_refl _ eq_refl eq_refl).
  reflexivity.
Defined.

Lemma login_then_refresh_witness :
  exists r db2,
    AuthService.refreshAccessToken Sample.config Sample.R1 6000 Sample.db1
      = (Ok r, db2) /\
    AuthService.rr_refreshToken r <> Sample.R1 /\
    prisma.refreshToken.by_token Sample.R1 db2 = None.
Proof.
  destruct (login_then_refresh Sample.config UTC "John@Example.com" "Client123!"
              false 5000 6000 Sample.db0 Sample.db1
              (AuthService.mkLoginResult SampleRequests.A1 Sample.R1
                 (AuthService.mkPublicUser "u1" "john@example.com" "John"
                    CLIENT))
              Sample.john)
    as (r & db2 & Hok & Hdiff & Hgone & _).
  - apply no_sessions_unique.
  - reflexivity.
  - reflexivity.
  - reflexivity.
  - reflexivity.
  - reflexivity.
  - vm_compute. discriminate.
  - reflexivity.
  - exists r, db2. auto.
Defined.

(** ** An invariant of the Session table *)

Lemma filter_match (Q : RefreshToken.t -> Prop)
    `{!forall x, Decision (Q x)} (db : Db) (us : list User.t) (n : nat) :
  rows_match_tokens db ->
  rows_match_tokens (mkDb us (filter Q (refreshTokens db)) n).
Proof.
  intros Hinv r [_ Hr]%list_elem_of_filter. apply Hinv. exact Hr.
Qed.

Lemma create_match (j : jwt.Jws) (uid : string) (e : Date) :
  userId (jwt.claims j) = uid ->
  preserves rows_match_tokens (prisma.refreshToken.create (jwt.Signed j) uid e).
Proof.
  intros Hsubject db Hinv. unfold prisma.refreshToken.create.
  destruct (prisma.refreshToken.by_token (jwt.Signed j) db); [exact Hinv|].
  simpl. intros r [Hr|Hr]%elem_of_app; [apply Hinv; exact Hr|].
  apply list_elem_of_singleton in Hr as ->. exists j. split; [reflexivity|].
  exact Hsubject.
Qed.

Lemma delete_match (i : nat) :
  preserves rows_match_tokens (prisma.refreshToken.delete i).
Proof.
  intros db Hinv. unfold prisma.refreshToken.delete.
  destruct (prisma.refreshToken.by_id i db); [|exact Hinv].
  apply filter_match. exact Hinv.
Qed.

Lemma update_passwordHash_match (i : string) (h : bcrypt.Hashed) :
  preserves rows_match_tokens (prisma.user.update_passwordHash i h).
Proof.
  intros db Hinv. unfold prisma.user.update_passwordHash.
  destruct (prisma.user.by_id i db); exact Hinv.
Qed.

Section SessionOwner.

Variable config : Config.
Variable tz : TimeZone.

(** Sessions belong to the principal their token names.  [login] and
    [refreshAccessToken] store each new row under the id they sign into
    its token, and no operation of the service breaks that.  So after
    [logoutAll] for a principal, every refresh token the codec accepts as
    that principal's is answered [RefreshTokenNotFound]: the principal's
    rows are exactly the rows of the principal's tokens. *)
Theorem sessions_belong_to_token_subject (db : Db) :
  rows_match_tokens db ->
  (forall email password rememberMe now,
     rows_match_tokens
       (snd (AuthService.login config tz email password rememberMe now db))) /\
  (forall t now,
     rows_match_tokens
       (snd (AuthService.refreshAccessToken config t now db))) /\
  (forall t, rows_match_tokens (snd (AuthService.logout t db))) /\
  (forall uid, rows_match_tokens (snd (AuthService.logoutAll uid db))) /\
  (forall uid cur new salt,
     rows_match_tokens
       (snd (AuthService.changePassword uid cur new salt db))) /\
  (forall uid new salt,
     rows_match_tokens
       (snd (AuthService.adminResetPassword uid new salt db))) /\
  (forall (t : jwt.Token) (later : Date) (p : JwtPayload),
     jwt.verify t (refreshSecret config) later = inr p ->
     AuthService.refreshAccessToken config t later
       (snd (AuthService.logoutAll (userId p) db))
     = (Throw RefreshTokenNotFound,
        snd (AuthService.logoutAll (userId p) db))).
Proof.
  intros Hinv.
  split; [|split; [|split; [|split; [|split; [|split]]]]].
  - intros email password rememberMe now. revert db Hinv.
    change (preserves rows_match_tokens
              (AuthService.login config tz email password rememberMe now)).
    unfold AuthService.login.
    apply preserves_bind; [auto with preserves|]. intros [u|];
      [|auto with preserves].
    destruct (negb (User.active u)); [auto with preserves|].
    destruct (negb _); [auto with preserves|].
    apply preserves_bind; [|auto with preserves].
    apply create_match. reflexivity.
  - intros t now. revert db Hinv.
    change (preserves rows_match_tokens
              (AuthService.refreshAccessToken config t now)).
    unfold AuthService.refreshAccessToken.
    destruct (jwt.verify _ _ _) as [e0|p0]; [auto with preserves|].
    apply preserves_bind; [auto with preserves|]. intros [[row u]|];
      [|auto with preserves].
    case_bool_decide.
    { apply preserves_bind; [apply delete_match | auto with preserves]. }
    destruct (negb (User.active u)); [auto with preserves|].
    apply preserves_bind; [apply delete_match|]. intros _.
    apply preserves_bind; [|auto with preserves].
    apply create_match. reflexivity.
  - intros t. apply filter_match. exact Hinv.
  - intros uid. apply filter_match. exact Hinv.
  - intros uid cur new salt. revert db Hinv.
    change (preserves rows_match_tokens
              (AuthService.changePassword uid cur new salt)).
    unfold AuthService.changePassword.
    apply preserves_bind; [auto with preserves|]. intros [u|];
      [|auto with preserves].
    destruct (negb _); [auto with preserves|].
    apply preserves_bind; [apply update_passwordHash_match|]. intros _.
    intros db Hdb. apply filter_match. exact Hdb.
  - intros uid new salt. revert db Hinv.
    change (preserves rows_match_tokens
              (AuthService.adminResetPassword uid new salt)).
    unfold AuthService.adminResetPassword.
    apply preserves_bind; [auto with preserves|]. intros [u|];
      [|auto with preserves].
    apply preserves_bind; [apply update_passwordHash_match|]. intros _.
    intros db Hdb. apply filter_match. exact Hdb.
  - intros t later p Hverify.
    rewrite refresh_without_row; [rewrite Hverify; reflexivity|].
    apply by_token_None. simpl.
    intros r [Hother Hr]%list_elem_of_filter Htok.
    destruct (Hinv r Hr) as (j & Hj & Hsubject).
    apply Hother. rewrite <- Hsubject.
    rewrite Hj in Htok. subst t. simpl in Hverify.
    destruct (bool_decide (jwt.key j = refreshSecret config));
      [|discriminate].
    destruct (bool_decide (jwt.exp j <= jwt.clockTimestamp later));
      [discriminate|].
    congruence.
Qed.

End SessionOwner.

Lemma no_sessions_match (us : list User.t) (n : nat) :
  rows_match_tokens (mkDb us [] n).
Proof. intros r Hr. inversion Hr. Qed.

Lemma sessions_belong_to_token_subject_witness :
  rows_match_tokens Sample.db1 /\
  AuthService.refreshAccessToken Sample.config Sample.R1 6000
    (snd (AuthService.logoutAll "u1" Sample.db1))
  = (Throw RefreshTokenNotFound, snd (AuthService.logoutAll "u1" Sample.db1)).
Proof.
  assert (Hdb1 : rows_match_tokens Sample.db1).
  { apply (proj1 (sessions_belong_to_token_subject Sample.config UTC
                    Sample.db0 (no_sessions_match _ _))). }
  split; [exact Hdb1|].
  apply (proj2 (proj2 (proj2 (proj2 (proj2 (proj2
           (sessions_belong_to_token_subject Sample.config UTC Sample.db1
              Hdb1)))))) Sample.R1 6000 Sample.john_payload).
  reflexivity.
Defined.

(** ** The guards of a route, one after the other *)

Section GuardChain.

Variable config : Config.

(** [authenticate, requireRole('ADMIN')], the stack in front of every
    admin route, lets a request through exactly when it carries a bearer
    token that the codec accepts under the access key, the principal named
    in the token exists and is active in the store, and the role in the
    token is [ADMIN]; the request then carries the token's claims. *)
Theorem admin_stack_passes_exactly
    (req req' : Request) (now : Date) (db : Db) :
  andThen (middleware.authenticate config req now db)
          (middleware.requireRole [ADMIN]) = next req'
  <->
  exists (j : jwt.Jws) (u : User.t),
    authorization req = Some (Bearer (jwt.Signed j)) /\
    jwt.key j = accessSecret config /\
    jwt.clockTimestamp now < jwt.exp j /\
    prisma.user.by_id (userId (jwt.claims j)) db = Some u /\
    User.active u = true /\
    role (jwt.claims j) = ADMIN /\
    req' = middleware.set_user req (jwt.claims j).
Proof.
  unfold middleware.authenticate, middleware.authenticate_try,
    middleware.bearerToken.
  split.
  - destruct (authorization req) as [[[j|text]|other]|]; simpl;
      try discriminate; [|destruct text; discriminate].
    case_bool_decide as Hkey; [|discriminate].
    case_bool_decide as Hexp; [discriminate|].
    run_async.
    destruct (prisma.user.by_id (userId (jwt.claims j)) db) as [u|] eqn:Hu;
      [|discriminate].
    destruct (User.active u) eqn:Hact; simpl; [|discriminate].
    unfold middleware.requireRole. simpl.
    case_bool_decide as Hrole; simpl; [|discriminate].
    intros [= <-]. exists j, u.
    apply list_elem_of_singleton in Hrole.
    repeat split; auto. lia.
  - intros (j & u & -> & Hkey & Hexp & Hu & Hact & Hrole & ->). simpl.
    rewrite bool_decide_eq_true_2 by exact Hkey.
    rewrite bool_decide_eq_false_2 by lia.
    run_async. rewrite Hu, Hact. simpl.
    unfold middleware.requireRole. simpl.
    rewrite bool_decide_eq_true_2
      by (rewrite Hrole; apply list_elem_of_singleton; reflexivity).
    reflexivity.
Qed.

(** The guards depend on their order.  Behind [authenticate] neither
    [requireRole] nor [requireOwnership] ever answers "Not authenticated";
    on a request that [authenticate] has not passed (no principal
    attached) both answer it, whatever roles are allowed and whatever
    owner the request names. *)
Theorem guards_need_authenticate_first
    (req : Request) (now : Date) (db : Db) (roles : list Role)
    (paramName : string) :
  andThen (middleware.authenticate config req now db)
          (middleware.requireRole roles) <> next_error NotAuthenticated /\
  andThen (middleware.authenticate config req now db)
          (middleware.requireOwnership paramName)
    <> next_error NotAuthenticated /\
  (user req = None ->
   middleware.requireRole roles req = next_error NotAuthenticated /\
   middleware.requireOwnership paramName req = next_error NotAuthenticated).
Proof.
  assert (Hauth : forall mw,
    (forall r p, user r = Some p -> mw r <> next_error NotAuthenticated) ->
    andThen (middleware.authenticate config req now db) mw
    <> next_error NotAuthenticated).
  { intros mw Hmw.
    unfold middleware.authenticate, middleware.authenticate_try,
      middleware.bearerToken.
    destruct (authorization req) as [[[j|text]|other]|]; simpl;
      try discriminate; [|destruct text; discriminate].
    case_bool_decide; [|discriminate].
    case_bool_decide; [discriminate|].
    run_async.
    destruct (prisma.user.by_id (userId (jwt.claims j)) db) as [u|];
      [|discriminate].
    destruct (User.active u); simpl; [|discriminate].
    apply (Hmw _ (jwt.claims j)). reflexivity. }
  split; [|split].
  - apply Hauth. intros r p Hp. unfold middleware.requireRole. rewrite Hp.
    destruct (negb _); discriminate.
  - apply Hauth. intros r p Hp. unfold middleware.requireOwnership.
    rewrite Hp. case_bool_decide; [discriminate|].
    destruct (_ && _)%bool; discriminate.
  - intros Hnone. unfold middleware.requireRole, middleware.requireOwnership.
    rewrite Hnone. split; reflexivity.
Qed.

End GuardChain.

(** ** [requireOwnership]: which owner id counts *)

Section OwnerPrecedence.

Variables (paramName : string) (req : Request) (u : JwtPayload).
Hypothesis authenticated : user req = Some u.
Hypothesis client : role u = CLIENT.

(** The path parameter wins over the body.  A [CLIENT] whose non-empty
    path parameter is their own id passes even when the body names
    somebody else; one whose non-empty path parameter is somebody else's
    id gets 403 even when the body names themselves. *)
Theorem requireOwnership_path_parameter_wins (owner : string) :
  params req !! paramName = Some owner ->
  owner <> "" ->
  middleware.requireOwnership paramName req
  = if bool_decide (owner = userId u) then next req
    else next_error CannotAccessOthersData.
Proof.
  intros Hp Hne. unfold middleware.requireOwnership.
  rewrite authenticated, client. simpl.
  rewrite (resourceClientId_param paramName req owner Hp Hne). simpl.
  rewrite (bool_decide_eq_false_2 (owner = "")) by exact Hne. simpl.
  destruct (decide (owner = userId u)) as [->|Hother].
  - rewrite !bool_decide_eq_true_2 by reflexivity. reflexivity.
  - rewrite (bool_decide_eq_false_2 (JsString owner = JsString (userId u)))
      by congruence.
    rewrite (bool_decide_eq_false_2 (owner = userId u)) by exact Hother.
    reflexivity.
Qed.

(** An owner id in the body that is not a string.  For a field name that
    plain objects do not inherit, with no usable path parameter, a
    [CLIENT] request whose body field is a non-string value gets 403 when
    the value is truthy (a non-zero number, [true], an object) and passes
    when it is falsy ([null], [0], [false]). *)
Theorem requireOwnership_non_string_owner
    (b : gmap string JsValue) (v : JsValue) :
  paramName ∉ Object_prototype ->
  params req !! paramName = None \/ params req !! paramName = Some "" ->
  body req = Some b ->
  b !! paramName = Some v ->
  (forall s, v <> JsString s) ->
  middleware.requireOwnership paramName req
  = if truthy v then next_error CannotAccessOthersData else next req.
Proof.
  intros Hown Hp Hb Hv Hnot. unfold middleware.requireOwnership.
  rewrite authenticated, client. simpl.
  rewrite (resourceClientId_body paramName req) by (destruct Hp; auto).
  rewrite Hb. unfold get_property. rewrite Hv. simpl.
  rewrite (bool_decide_eq_false_2 (v = JsString (userId u))) by apply Hnot.
  destruct (truthy v); reflexivity.
Qed.

End OwnerPrecedence.

Lemma admin_stack_passes_exactly_witness :
  andThen (middleware.authenticate Sample.config
             (SampleRequests.bearer SampleGuards.admin_token) 6000 Sample.db0)
          (middleware.requireRole [ADMIN])
  = next (middleware.set_user (SampleRequests.bearer SampleGuards.admin_token)
            SampleOwnership.admin_payload).
Proof.
  apply (proj2 (admin_stack_passes_exactly Sample.config
                  (SampleRequests.bearer SampleGuards.admin_token) _ 6000
                  Sample.db0)).
  eexists _, Sample.admin. split; [reflexivity|].
  split; [reflexivity|]. split; [vm_compute; reflexivity|].
  split; [reflexivity|]. split; [reflexivity|]. split; reflexivity.
Defined.

Lemma guards_need_authenticate_first_witness :
  middleware.requireRole [ADMIN; CLIENT] SampleRequests.no_header
    = next_error NotAuthenticated /\
  middleware.requireOwnership "clientId" SampleRequests.no_header
    = next_error NotAuthenticated.
Proof.
  apply (proj2 (proj2 (guards_need_authenticate_first Sample.config
                         SampleRequests.no_header 6000 Sample.db0
                         [ADMIN; CLIENT] "clientId"))).
  reflexivity.
Defined.

Lemma requireOwnership_path_parameter_wins_witness :
  middleware.requireOwnership "clientId" SampleGuards.own_path_other_body
    = next SampleGuards.own_path_other_body /\
  middleware.requireOwnership "clientId" SampleGuards.other_path_own_body
    = next_error CannotAccessOthersData.
Proof.
  split.
  - refine (requireOwnership_path_parameter_wins "clientId"
              SampleGuards.own_path_other_body Sample.john_payload
              eq_refl eq_refl "u1" _ _); [vm_compute; reflexivity|].
    discriminate.
  - refine (requireOwnership_path_parameter_wins "clientId"
              SampleGuards.other_path_own_body Sample.john_payload
              eq_refl eq_refl "u2" _ _); [vm_compute; reflexivity|].
    discriminate.
Defined.

Lemma requireOwnership_non_string_owner_witness :
  middleware.requireOwnership "clientId" SampleGuards.numeric_owner
    = next_error CannotAccessOthersData /\
  middleware.requireOwnership "clientId" SampleGuards.null_owner
    = next SampleGuards.null_owner.
Proof.
  split.
  - refine (requireOwnership_non_string_owner "clientId"
              SampleGuards.numeric_owner Sample.john_payload eq_refl eq_refl
              {[ "clientId" := JsNumber 7 ]} (JsNumber 7)
              clientId_not_inherited _ eq_refl _ _).
    + left. vm_compute. reflexivity.
    + vm_compute. reflexivity.
    + discriminate.
  - refine (requireOwnership_non_string_owner "clientId"
              SampleGuards.null_owner Sample.john_payload eq_refl eq_refl
              {[ "clientId" := JsNull ]} JsNull
              clientId_not_inherited _ eq_refl _ _).
    + left. vm_compute. reflexivity.
    + vm_compute. reflexivity.
    + discriminate.
Defined.

(** ** Routes *)

Lemma by_id_after_set_active (i : string) (a : bool) (us : list User.t)
    (u : User.t) :
  snd <$> list_find (fun u => User.id u = i) us = Some u ->
  snd <$> list_find (fun u => User.id u = i)
            ((fun u => if decide (User.id u = i)
                       then user_routes.set_active a u else u) <$> us)
  = Some (user_routes.set_active a u).
Proof.
  intros Hu.
  rewrite (find_row_fmap (fun u => User.id u = i)).
  - rewrite Hu. simpl.
    apply (find_row_Some (fun u => User.id u = i)) in Hu as [_ Hid].
    rewrite decide_True by exact Hid. reflexivity.
  - intros x. destruct (decide (User.id x = i)); reflexivity.
Qed.

Section Deactivation.

Variable config : Config.

(** [DELETE /users/clients/:clientId] on a stored client switches the
    active flag off and keeps the client's Session rows.  From then on
    the client is locked out on every path: a refresh with one of the
    client's stored, unexpired tokens is answered [AccountDisabled] and
    leaves the row in place, and a request bearing an access token of the
    client is answered "User not found or inactive". *)
Theorem delete_client_locks_out_and_keeps_sessions
    (clientId : string) (db : Db) (u : User.t) :
  prisma.user.by_id clientId db = Some u ->
  User.role u = CLIENT ->
  exists db',
    user_routes.delete_client_handler clientId db
      = (Ok "Client deactivated successfully", db') /\
    refreshTokens db' = refreshTokens db /\
    prisma.user.by_id clientId db' = Some (user_routes.set_active false u) /\
    (forall (t : jwt.Token) (now : Date) (p : JwtPayload)
            (row : RefreshToken.t),
       jwt.verify t (refreshSecret config) now = inr p ->
       prisma.refreshToken.by_token t db = Some row ->
       RefreshToken.userId row = clientId ->
       ~ RefreshToken.expiresAt row < now ->
       AuthService.refreshAccessToken config t now db'
       = (Throw AccountDisabled, db')) /\
    (forall (req : Request) (now : Date) (t : jwt.Token) (p : JwtPayload),
       authorization req = Some (Bearer t) ->
       jwt.verify t (accessSecret config) now = inr p ->
       userId p = clientId ->
       middleware.authenticate config req now db'
       = next_error UserNotFoundOrInactive).
Proof.
  intros Hu Hrole.
  set (db' := mkDb ((fun u => if decide (User.id u = clientId)
                              then user_routes.set_active false u else u)
                      <$> users db)
                   (refreshTokens db) (nextId db)).
  assert (Hu' : prisma.user.by_id clientId db'
                = Some (user_routes.set_active false u)).
  { unfold prisma.user.by_id in *. simpl.
    apply by_id_after_set_active. exact Hu. }
  exists db'. split; [|split; [reflexivity|split; [exact Hu'|split]]].
  - unfold user_routes.delete_client_handler, user_routes.findUnique_client,
      user_routes.update_active.
    run_async. rewrite Hu, Hrole. simpl. rewrite Hu. reflexivity.
  - intros t now p row Hverify Hrow Hown Hlive.
    apply (refresh_deactivated_keeps_row config t now db' p row
             (user_routes.set_active false u)); auto.
    rewrite Hown. exact Hu'.
  - intros req now t p Hauth Hverify Hp.
    unfold middleware.authenticate, middleware.authenticate_try.
    rewrite Hauth. simpl.
    assert (Htruthy : jwt.truthy t = true).
    { destruct t as [j|text]; [reflexivity | discriminate]. }
    rewrite Htruthy, Hverify. simpl. run_async.
    rewrite Hp, Hu'. reflexivity.
Qed.

(** The same route on an id that is not a stored client (no such user, or
    an [ADMIN]) answers [NotFoundError('Client')] and changes nothing: an
    admin account cannot be deactivated through it. *)
Theorem delete_client_refuses_non_clients (clientId : string) (db : Db) :
  (prisma.user.by_id clientId db = None \/
   exists u, prisma.user.by_id clientId db = Some u /\ User.role u = ADMIN) ->
  user_routes.delete_client_handler clientId db
  = (Throw (AppErr (NotFoundError "Client")), db).
Proof.
  unfold user_routes.delete_client_handler, user_routes.findUnique_client.
  run_async. intros [-> | (u & -> & Hrole)]; [reflexivity|].
  rewrite Hrole. reflexivity.
Qed.

(** [POST /auth/logout-all] never fails in its handler: either
    [authenticate] refuses the request and the store is untouched, or the
    reply is sent and the store has lost exactly the Sessions of the
    principal named in the bearer token. *)
Theorem logout_all_route_outcomes (req : Request) (now : Date) (db : Db) :
  (exists e,
     middleware.authenticate config req now db = next_error e /\
     auth_routes.logout_all config req now db = (inl (Raised e), db)) \/
  (exists j : jwt.Jws,
     authorization req = Some (Bearer (jwt.Signed j)) /\
     auth_routes.logout_all config req now db
     = (inr "Logged out from all devices",
        mkDb (users db)
             (filter (fun r => RefreshToken.userId r <> userId (jwt.claims j))
                     (refreshTokens db))
             (nextId db))).
Proof.
  unfold auth_routes.logout_all.
  destruct (middleware.authenticate config req now db) as [req'|e] eqn:Hauth;
    [|left; exists e; split; reflexivity].
  right. revert Hauth.
  unfold middleware.authenticate, middleware.authenticate_try,
    middleware.bearerToken.
  destruct (authorization req) as [[[j|text]|other]|]; simpl;
    try discriminate; [|destruct text; discriminate].
  case_bool_decide; [|discriminate].
  case_bool_decide; [discriminate|].
  run_async.
  destruct (prisma.user.by_id (userId (jwt.claims j)) db) as [u|];
    [|discriminate].
  destruct (User.active u); simpl; [|discriminate].
  intros [= <-]. exists j. split; reflexivity.
Qed.

End Deactivation.

Lemma delete_client_locks_out_and_keeps_sessions_witness :
  exists db',
    user_routes.delete_client_handler "u1" Sample.db1
      = (Ok "Client deactivated successfully", db') /\
    prisma.refreshToken.by_token Sample.R1 db' = Some SampleRows.row1 /\
    AuthService.refreshAccessToken Sample.config Sample.R1 6000 db'
      = (Throw AccountDisabled, db') /\
    middleware.authenticate Sample.config
      (SampleRequests.bearer SampleRequests.A1) 6000 db'
      = next_error UserNotFoundOrInactive.
Proof.
  destruct (delete_client_locks_out_and_keeps_sessions Sample.config "u1"
              Sample.db1 Sample.john eq_refl eq_refl)
    as (db' & Hok & Hrows & _ & Hrefresh & Hauth).
  exists db'. split; [exact Hok|]. split; [|split].
  - unfold prisma.refreshToken.by_token. rewrite Hrows. reflexivity.
  - apply (Hrefresh Sample.R1 6000 Sample.john_payload SampleRows.row1);
      try reflexivity.
    vm_compute. discriminate.
  - apply (Hauth (SampleRequests.bearer SampleRequests.A1) 6000
             SampleRequests.A1 Sample.john_payload); reflexivity.
Defined.

Lemma delete_client_refuses_non_clients_witness :
  user_routes.delete_client_handler "u0" Sample.db1
    = (Throw (AppErr (NotFoundError "Client")), Sample.db1) /\
  user_routes.delete_client_handler "u9" Sample.db1
    = (Throw (AppErr (NotFoundError "Client")), Sample.db1).
Proof.
  split.
  - apply (delete_client_refuses_non_clients "u0" Sample.db1).
    right. exists Sample.admin. split; reflexivity.
  - apply (delete_client_refuses_non_clients "u9" Sample.db1).
    left. reflexivity.
Defined.

Lemma logout_all_route_outcomes_witness :
  auth_routes.logout_all Sample.config
    (SampleRequests.bearer SampleRequests.A1) 6000 Sample.db1
  = (inr "Logged out from all devices", mkDb (users Sample.db0) [] 1).
Proof.
  destruct (logout_all_route_outcomes Sample.config
              (SampleRequests.bearer SampleRequests.A1) 6000 Sample.db1)
    as [(e & Hfail & _) | (j & Hj & Hok)].
  - vm_compute in Hfail. discriminate.
  - injection Hj as <-. exact Hok.
Defined.
